(** * The DashScope CORS proxies of ceci317/muse

    A shallow embedding of the two request handlers of the repository,
    [SimpleProxyHandler] (src/muse_plus/simple_proxy.py, built on the
    [requests] library) and [CORSProxyHandler] (src/proxy_server.py, built on
    [urllib.request]), and the properties of the specification checked
    against them.

    Both classes derive from [http.server.BaseHTTPRequestHandler].  The base
    class parses the request line and the header block, and calls
    [do_OPTIONS] or [do_POST]; the embedding starts at that call.  A command
    for which the class has no [do_] method never enters the handlers' code
    (the base class answers it itself), so the commands of the model are the
    two the handlers implement.  The logging [print]s are left out, and
    writes to the caller are taken to succeed. *)

From Stdlib Require Import String Ascii ZArith List Bool Lia DecimalString.
From stdpp Require Import gmap strings list fin_maps.

Open Scope string_scope.
Open Scope Z_scope.
Open Scope list_scope.

(** ** Python values

    A [str] that reaches the handlers is the ISO-8859-1 decoding of bytes of
    the connection (request line, header fields), one character per byte: a
    [string].  A [bytes] value is a [string] too, one character per byte.
    The text of a caught exception is only ever used inside an f-string that
    is [.encode()]d as a whole; since UTF-8 encoding distributes over
    concatenation, the model keeps [str(e)] in its encoded form. *)

Definition bytes : Type := string.

(** The double quote, which the f-strings of the error bodies contain. *)
Definition dq : string := String "034"%char "".

(** The line feed of the error page template. *)
Definition nl : string := String "010"%char "".

Module Str.

(** [str.lower] and [str.capitalize] on one character.  The handlers apply
    them to header field names only, and the header parser of the standard
    library admits the characters 33 to 126 in a field name: on those the
    functions below are Python's.  Other characters are left as they are. *)
Definition lower_char (c : ascii) : ascii :=
  let n := nat_of_ascii c in
  if (Nat.leb 65 n && Nat.leb n 90)%bool then ascii_of_nat (n + 32) else c.

Definition upper_char (c : ascii) : ascii :=
  let n := nat_of_ascii c in
  if (Nat.leb 97 n && Nat.leb n 122)%bool then ascii_of_nat (n - 32) else c.

Fixpoint lower (s : string) : string :=
  match s with
  | EmptyString => EmptyString
  | String c r => String (lower_char c) (lower r)
  end.

(** [str.capitalize]: first character upper-cased, the rest lower-cased. *)
Definition capitalize (s : string) : string :=
  match s with
  | EmptyString => EmptyString
  | String c r => String (upper_char c) (lower r)
  end.

(** [s.startswith(p)]. *)
Fixpoint startswith (s p : string) : bool :=
  match p with
  | EmptyString => true
  | String b p' =>
      match s with
      | EmptyString => false
      | String a s' => Ascii.eqb a b && startswith s' p'
      end
  end.

(** What [replace] does when [old] is empty: [new] before every character
    and at the end. *)
Fixpoint intersperse (new s : string) : string :=
  match s with
  | EmptyString => new
  | String c r => new +:+ String c (intersperse new r)
  end.

(** The scan of [str.replace]: left to right, every occurrence of [old]
    that does not overlap an earlier one is replaced.  [skip] counts the
    characters of the occurrence just replaced that are still to be
    dropped. *)
Fixpoint replace_scan (old new : string) (skip : nat) (s : string) : string :=
  match s with
  | EmptyString => EmptyString
  | String c r =>
      match skip with
      | S k => replace_scan old new k r
      | O =>
          if startswith s old
          then new +:+ replace_scan old new (String.length old - 1) r
          else String c (replace_scan old new 0 r)
      end
  end.

(** [s.replace(old, new)]: all occurrences, no count. *)
Definition replace (s old new : string) : string :=
  match old with
  | EmptyString => intersperse new s
  | _ => replace_scan old new 0 s
  end.

(** [b[:n]] and [b[n:]]. *)
Fixpoint take (n : nat) (s : string) : string :=
  match n, s with
  | S k, String c r => String c (take k r)
  | _, _ => EmptyString
  end.

Fixpoint drop (n : nat) (s : string) : string :=
  match n, s with
  | S k, String _ r => drop k r
  | _, _ => s
  end.

(** [str(n)] for an [int]. *)
Definition of_Z (z : Z) : string := NilZero.string_of_int (Z.to_int z).

(** [b''.join(l)]. *)
Definition join (l : list string) : string :=
  fold_right String.append EmptyString l.

(** [x in l] for a list of strings. *)
Definition mem (x : string) (l : list string) : bool :=
  existsb (String.eqb x) l.

(** [html.escape(s, quote=False)]. *)
Fixpoint html_escape (s : string) : string :=
  match s with
  | EmptyString => EmptyString
  | String c r =>
      (if Ascii.eqb c "&" then "&amp;"
       else if Ascii.eqb c "<" then "&lt;"
       else if Ascii.eqb c ">" then "&gt;"
       else String c EmptyString) +:+ html_escape r
  end.

End Str.

(** ** The interpreter and the standard library around the handlers *)

(** What the handlers take from the running interpreter: the two strings
    [send_response] puts in the [Server] and [Date] header fields (the clock
    is read as constant over one request), the table
    [BaseHTTPRequestHandler.responses] of reason phrases and explanations,
    the builtin [int] on a [str], which returns the number or raises
    [ValueError] with the given text, and the sizes [n] for which
    [self.rfile.read(n)] raises instead of reading, with the text of the
    exception: [OverflowError] for a size the index type or a bytes object
    cannot hold, [MemoryError] for a buffer the machine cannot allocate. *)
Record Runtime := {
  version_string : string;
  date_time_string : string;
  responses : Z -> option (string * string);
  py_int : string -> Z + bytes;
  rfile_read_error : Z -> option bytes
}.

(** A line of [_headers_buffer]. *)
Inductive HeadLine :=
| StatusLine (protocol_version : string) (code : Z) (message : string)
| Header (keyword value : string).

(** The exceptions the handlers tell apart, each with what the handlers read
    from it.  [HTTPError] is [urllib.error.HTTPError]; its [body] is what
    [e.read()] returns, [None] when that call raises. *)
Inductive Exn :=
| RequestException (msg : bytes)
| HTTPError (code : Z) (reason : bytes) (body : option bytes)
| Exception (msg : bytes).

(** [str(e).encode()]. *)
Definition str_e (e : Exn) : bytes :=
  match e with
  | RequestException msg => msg
  | HTTPError code reason _ => "HTTP Error " +:+ Str.of_Z code +:+ ": " +:+ reason
  | Exception msg => msg
  end.

(** A [requests.Response]: [content], and the chunks [iter_content] yields
    for a chunk size, followed by the exception that ends the iteration
    early, if any. *)
Record Response := {
  status_code : Z;
  resp_headers : list (string * string);
  content : bytes;
  iter_content : Z -> list bytes * option Exn
}.

(** The arguments of [requests.post].  The model stops at the call: what the
    client library adds on the wire (its own Host and Content-Length) is not
    the handlers' doing. *)
Record RequestsCall := {
  rq_url : string;
  rq_data : bytes;
  rq_headers : gmap string string;
  rq_verify : bool;
  rq_timeout : Z;
  rq_stream : bool
}.

(** [ssl.SSLContext], the two attributes the handler sets. *)
Inductive VerifyMode := CERT_NONE | CERT_REQUIRED.

Record SSLContext := {
  check_hostname : bool;
  verify_mode : VerifyMode
}.

Definition create_default_context : SSLContext :=
  {| check_hostname := true; verify_mode := CERT_REQUIRED |}.

(** A [urllib.request.Request], with the URL its constructor was given under
    the name of the attribute that returns it, and the arguments of
    [urlopen]. *)
Record UrlRequest := {
  full_url : string;
  data : bytes;
  method : string;
  req_headers : gmap string string
}.

Record UrlopenCall := {
  uo_req : UrlRequest;
  uo_context : SSLContext
}.

(** [Request.add_header]: the key is capitalised. *)
Definition add_header (req : UrlRequest) (key val : string) : UrlRequest :=
  {| full_url := full_url req; data := data req; method := method req;
     req_headers := <[Str.capitalize key := val]> (req_headers req) |}.

(** The response object of [urlopen]; [read] is the body, or the exception
    [response.read()] raises. *)
Record UrlResponse := {
  getcode : Z;
  url_headers : list (string * string);
  read : bytes + Exn
}.

(** The upstream as the handlers see it: what each client call returns or
    raises. *)
Record World := {
  requests_post : RequestsCall -> Response + Exn;
  urlopen : UrlopenCall -> UrlResponse + Exn
}.

(** What a handler does that can be observed, in the order it happens. *)
Inductive Event :=
| RfileRead (n : Z) (got : bytes)
| RequestsPost (call : RequestsCall)
| Urlopen (call : UrlopenCall)
| IterChunk (chunk : bytes)
| WfileHead (lines : list HeadLine)
| WfileWrite (b : bytes)
| WfileFlush.

(** The request as the base class hands it over. *)
Inductive Command := OPTIONS | POST.

Record Request := {
  command : Command;
  path : string;
  headers : list (string * string);
  body_stream : bytes
}.

(** ** Handler state and the monad of handler code *)

Record State := {
  headers_buffer : list HeadLine;
  rfile : bytes;
  trace : list Event
}.

Definition M (A : Type) : Type := State -> (A + Exn) * State.

Definition ret {A} (a : A) : M A := fun s => (inl a, s).

Definition bind {A B} (m : M A) (k : A -> M B) : M B :=
  fun s => match m s with
           | (inl a, s') => k a s'
           | (inr e, s') => (inr e, s')
           end.

Definition raise {A} (e : Exn) : M A := fun s => (inr e, s).

(** [try: m  except ... as e: h e]. *)
Definition try_except {A} (m : M A) (h : Exn -> M A) : M A :=
  fun s => match m s with
           | (inl a, s') => (inl a, s')
           | (inr e, s') => h e s'
           end.

Declare Scope handler_scope.
Delimit Scope handler_scope with handler.
Notation "'let!' x ':=' m 'in' k" := (bind m (fun x => k))
  (at level 10, x name, m at level 100, k at level 200) : handler_scope.
Notation "m '>>' k" := (bind m (fun _ => k))
  (at level 90, right associativity) : handler_scope.
Open Scope handler_scope.

Definition emit (e : Event) : M unit :=
  fun s => (inl tt, {| headers_buffer := headers_buffer s; rfile := rfile s;
                       trace := trace s ++ [e] |}).

(** [for x in l: f x]. *)
Fixpoint for_each {X} (l : list X) (f : X -> M unit) : M unit :=
  match l with
  | [] => ret tt
  | x :: r => f x >> for_each r f
  end.

(** [for chunk in it: f chunk] over an iterator that yields [chunks] and
    then stops, or raises [failure]. *)
Fixpoint for_iter (chunks : list bytes) (failure : option Exn)
    (f : bytes -> M unit) : M unit :=
  match chunks with
  | [] => match failure with Some e => raise e | None => ret tt end
  | c :: r => emit (IterChunk c) >> f c >> for_iter r failure f
  end.

(** ** The methods of [BaseHTTPRequestHandler] the handlers call *)

Section BaseHTTPRequestHandler.

Context (rt : Runtime).

Definition protocol_version : string := "HTTP/1.0".

Definition error_content_type : string := "text/html;charset=utf-8".

(** [error_message_format % {'code': code, 'message': message,
    'explain': explain}] with the default template of the class. *)
Definition error_message_format (code : Z) (message explain : string) : string :=
  Str.join
    [ "<!DOCTYPE HTML>"; nl;
      "<html lang="; dq; "en"; dq; ">"; nl;
      "    <head>"; nl;
      "        <meta charset="; dq; "utf-8"; dq; ">"; nl;
      "        <title>Error response</title>"; nl;
      "    </head>"; nl;
      "    <body>"; nl;
      "        <h1>Error response</h1>"; nl;
      "        <p>Error code: "; Str.of_Z code; "</p>"; nl;
      "        <p>Message: "; message; ".</p>"; nl;
      "        <p>Error code explanation: "; Str.of_Z code; " - "; explain; ".</p>"; nl;
      "    </body>"; nl;
      "</html>"; nl ].

(** [content.encode('UTF-8', 'replace')] for a [str] of characters below
    256: one byte below 128, two bytes from there. *)
Fixpoint utf8_encode (s : string) : bytes :=
  match s with
  | EmptyString => EmptyString
  | String c r =>
      let n := nat_of_ascii c in
      if Nat.ltb n 128 then String c (utf8_encode r)
      else String (ascii_of_nat (192 + n / 64))
             (String (ascii_of_nat (128 + n mod 64)) (utf8_encode r))
  end.

Definition append_line (l : HeadLine) : M unit :=
  fun s => (inl tt, {| headers_buffer := headers_buffer s ++ [l];
                       rfile := rfile s; trace := trace s |}).

Definition send_response_only (code : Z) (message : option string) : M unit :=
  let message :=
    match message with
    | Some m => m
    | None => match responses rt code with
              | Some (shortmsg, _) => shortmsg
              | None => ""
              end
    end in
  append_line (StatusLine protocol_version code message).

Definition send_header (keyword value : string) : M unit :=
  append_line (Header keyword value).

Definition send_response (code : Z) (message : option string) : M unit :=
  send_response_only code message >>
  send_header "Server" (version_string rt) >>
  send_header "Date" (date_time_string rt).

(** [end_headers]: the buffer goes to [wfile] in one write and is
    emptied. *)
Definition end_headers : M unit :=
  fun s => (inl tt, {| headers_buffer := [];
                       rfile := rfile s;
                       trace := trace s ++ [WfileHead (headers_buffer s)] |}).

Definition wfile_write (b : bytes) : M unit := emit (WfileWrite b).

Definition wfile_flush : M unit := emit WfileFlush.

(** [self.rfile.read(n)] for a positive [n]: up to [n] bytes of what the
    connection still holds, unless the reader refuses the size, in which
    case nothing is read and the exception is raised. *)
Definition rfile_read (n : Z) : M bytes :=
  fun s =>
    match rfile_read_error rt n with
    | Some msg => (inr (Exception msg), s)
    | None =>
        let got := Str.take (Z.to_nat n) (rfile s) in
        (inl got, {| headers_buffer := headers_buffer s;
                     rfile := Str.drop (Z.to_nat n) (rfile s);
                     trace := trace s ++ [RfileRead n got] |})
    end.

(** [send_error(code, message)] for a command other than [HEAD]. *)
Definition send_error (code : Z) (message : option string) : M unit :=
  let '(shortmsg, longmsg) :=
    match responses rt code with
    | Some r => r
    | None => ("???", "???")
    end in
  let message := match message with Some m => m | None => shortmsg end in
  let explain := longmsg in
  send_response code (Some message) >>
  send_header "Connection" "close" >>
  let body :=
    if (code >=? 200) && negb (Z.eqb code 204 || Z.eqb code 205 || Z.eqb code 304)
    then Some (utf8_encode (error_message_format code
                              (Str.html_escape message) (Str.html_escape explain)))
    else None in
  match body with
  | Some body =>
      send_header "Content-Type" error_content_type >>
      send_header "Content-Length" (Str.of_Z (Z.of_nat (String.length body)))
  | None => ret tt
  end >>
  end_headers >>
  match body with
  | Some body => if negb (String.eqb body "") then wfile_write body else ret tt
  | None => ret tt
  end.

(** [int(v)]. *)
Definition int (v : string) : M Z :=
  match py_int rt v with
  | inl n => ret n
  | inr msg => raise (Exception msg)
  end.

End BaseHTTPRequestHandler.

(** [self.headers.get(name)]: the value of the first field whose name
    matches, case-insensitively. *)
Fixpoint headers_get (items : list (string * string)) (name : string) : option string :=
  match items with
  | [] => None
  | (k, v) :: r => if String.eqb (Str.lower k) (Str.lower name) then Some v
                   else headers_get r name
  end.

(** The error bodies, [f'{{"error": "<what>: {str(e)}"}}'.encode()]. *)
Definition error_json (what : string) (msg : bytes) : bytes :=
  "{" +:+ dq +:+ "error" +:+ dq +:+ ": " +:+ dq +:+ what +:+ ": " +:+ msg +:+ dq +:+ "}".

(** ** src/muse_plus/simple_proxy.py *)

Module SimpleProxy.
Section Handler.

Context (rt : Runtime) (w : World) (req : Request).

Definition send_cors_headers : M unit :=
  send_header "Access-Control-Allow-Origin" "*" >>
  send_header "Access-Control-Allow-Methods" "GET, POST, PUT, DELETE, OPTIONS" >>
  send_header "Access-Control-Allow-Headers" "Content-Type, Authorization, X-DashScope-SSE" >>
  send_header "Access-Control-Max-Age" "86400".

Definition do_OPTIONS : M unit :=
  send_response rt 200 None >>
  send_cors_headers >>
  end_headers.

(** One turn of the loop over [self.headers.items()], on the pair
    ([headers], [is_streaming]). *)
Definition header_step (acc : gmap string string * bool) (item : string * string)
    : gmap string string * bool :=
  let '(headers, is_streaming) := acc in
  let '(header, value) := item in
  if negb (Str.mem (Str.lower header) ["host"; "origin"; "referer"; "content-length"])
  then (<[header := value]> headers,
        if String.eqb (Str.lower header) "x-dashscope-sse" && String.eqb value "enable"
        then true else is_streaming)
  else (headers, is_streaming).

Definition prepare_headers (items : list (string * string)) : gmap string string * bool :=
  fold_left header_step items (∅, false).

(** One turn of the loop over [response.headers.items()]. *)
Definition copy_header (item : string * string) : M unit :=
  let '(header, value) := item in
  if negb (Str.mem (Str.lower header)
             ["access-control-allow-origin"; "content-encoding"; "transfer-encoding"])
  then send_header header value
  else ret tt.

Definition target_url (path : string) : string :=
  let target_path := Str.replace path "/api/dashscope" "" in
  "https://dashscope.aliyuncs.com" +:+ target_path.

Definition do_POST : M unit :=
  if negb (Str.startswith (path req) "/api/dashscope/")
  then send_error rt 404 (Some "Not Found")
  else
    let target_url := target_url (path req) in
    try_except
      (let! content_length :=
         match headers_get (headers req) "Content-Length" with
         | Some v => int rt v
         | None => ret 0
         end in
       let! post_data :=
         (if content_length >? 0 then rfile_read rt content_length else ret "") in
       let '(headers, is_streaming) := prepare_headers (headers req) in
       let call := {| rq_url := target_url; rq_data := post_data;
                      rq_headers := headers; rq_verify := false;
                      rq_timeout := 30; rq_stream := is_streaming |} in
       let! response :=
         (emit (RequestsPost call) >>
          match requests_post w call with
          | inl r => ret r
          | inr e => raise e
          end) in
       send_response rt (status_code response) None >>
       send_cors_headers >>
       for_each (resp_headers response) copy_header >>
       end_headers >>
       if is_streaming
       then
         let '(chunks, failure) := iter_content response 1024 in
         try_except
           (for_iter chunks failure
              (fun chunk =>
                 if negb (String.eqb chunk "")
                 then wfile_write chunk >> wfile_flush
                 else ret tt))
           (fun stream_error => ret tt)
       else wfile_write (content response))
      (fun e =>
         match e with
         | RequestException _ =>
             send_response rt 500 None >>
             send_cors_headers >>
             send_header "Content-Type" "application/json" >>
             end_headers >>
             wfile_write (error_json "Request failed" (str_e e))
         | _ =>
             send_response rt 500 None >>
             send_cors_headers >>
             send_header "Content-Type" "application/json" >>
             end_headers >>
             wfile_write (error_json "Proxy error" (str_e e))
         end).

End Handler.
End SimpleProxy.

(** ** src/proxy_server.py *)

Module CORSProxy.
Section Handler.

Context (rt : Runtime) (w : World) (req : Request).

Definition send_cors_headers : M unit :=
  send_header "Access-Control-Allow-Origin" "*" >>
  send_header "Access-Control-Allow-Methods" "GET, POST, PUT, DELETE, OPTIONS" >>
  send_header "Access-Control-Allow-Headers" "Content-Type, Authorization" >>
  send_header "Access-Control-Max-Age" "86400".

Definition do_OPTIONS : M unit :=
  send_response rt 200 None >>
  send_cors_headers >>
  end_headers.

(** One turn of the loop over [self.headers.items()], on [req]. *)
Definition header_step (r : UrlRequest) (item : string * string) : UrlRequest :=
  let '(header, value) := item in
  if negb (Str.mem (Str.lower header) ["host"; "origin"; "referer"; "content-length"])
  then add_header r header value
  else r.

(** One turn of the loop over [response.headers.items()]. *)
Definition copy_header (item : string * string) : M unit :=
  let '(header, value) := item in
  if negb (Str.mem (Str.lower header) ["access-control-allow-origin"])
  then send_header header value
  else ret tt.

Definition target_url (path : string) : string :=
  let target_path := Str.replace path "/api/dashscope" "" in
  "https://dashscope.aliyuncs.com" +:+ target_path.

Definition do_POST : M unit :=
  if negb (Str.startswith (path req) "/api/dashscope/")
  then send_error rt 404 (Some "Not Found")
  else
    let target_url := target_url (path req) in
    try_except
      (let! content_length :=
         match headers_get (headers req) "Content-Length" with
         | Some v => int rt v
         | None => ret 0
         end in
       let! post_data :=
         (if content_length >? 0 then rfile_read rt content_length else ret "") in
       let r := {| full_url := target_url; data := post_data;
                   method := "POST"; req_headers := ∅ |} in
       let r := fold_left header_step (headers req) r in
       let ssl_context := create_default_context in
       let ssl_context := {| check_hostname := false;
                             verify_mode := verify_mode ssl_context |} in
       let ssl_context := {| check_hostname := check_hostname ssl_context;
                             verify_mode := CERT_NONE |} in
       let call := {| uo_req := r; uo_context := ssl_context |} in
       let! response :=
         (emit (Urlopen call) >>
          match urlopen w call with
          | inl r => ret r
          | inr e => raise e
          end) in
       send_response rt (getcode response) None >>
       send_cors_headers >>
       for_each (url_headers response) copy_header >>
       end_headers >>
       let! body :=
         match read response with
         | inl b => ret b
         | inr e => raise e
         end in
       wfile_write body)
      (fun e =>
         match e with
         | HTTPError code reason body =>
             send_response rt code None >>
             send_cors_headers >>
             end_headers >>
             match body with
             | Some error_body => wfile_write error_body
             | None =>
                 wfile_write
                   ("{" +:+ dq +:+ "error" +:+ dq +:+ ": " +:+ dq +:+ "HTTP "
                    +:+ Str.of_Z code +:+ ": " +:+ reason +:+ dq +:+ "}")
             end
         | _ =>
             send_response rt 500 None >>
             send_cors_headers >>
             send_header "Content-Type" "application/json" >>
             end_headers >>
             wfile_write (error_json "Proxy error" (str_e e))
         end).

End Handler.
End CORSProxy.

(** ** Running a handler on a request *)

Inductive Handler := SimpleProxyHandler | CORSProxyHandler.

Definition initial_state (req : Request) : State :=
  {| headers_buffer := []; rfile := body_stream req; trace := [] |}.

(** The method the base class calls for the command of the request. *)
Definition dispatch (h : Handler) (rt : Runtime) (w : World) (req : Request) : M unit :=
  match h, command req with
  | SimpleProxyHandler, OPTIONS => SimpleProxy.do_OPTIONS rt
  | SimpleProxyHandler, POST => SimpleProxy.do_POST rt w req
  | CORSProxyHandler, OPTIONS => CORSProxy.do_OPTIONS rt
  | CORSProxyHandler, POST => CORSProxy.do_POST rt w req
  end.

(** Everything the handler did for the request, in order. *)
Definition run (h : Handler) (rt : Runtime) (w : World) (req : Request) : list Event :=
  trace (snd (dispatch h rt w req (initial_state req))).

(** Whether the method returned, or let an exception out. *)
Definition outcome (h : Handler) (rt : Runtime) (w : World) (req : Request) : unit + Exn :=
  fst (dispatch h rt w req (initial_state req)).

(** ** Reading a trace *)

(** The header blocks written to the caller. *)
Fixpoint heads (tr : list Event) : list (list HeadLine) :=
  match tr with
  | [] => []
  | WfileHead lines :: r => lines :: heads r
  | _ :: r => heads r
  end.

(** The body writes, in order. *)
Fixpoint body_writes (tr : list Event) : list bytes :=
  match tr with
  | [] => []
  | WfileWrite b :: r => b :: body_writes r
  | _ :: r => body_writes r
  end.

(** The body the caller receives. *)
Definition response_body (tr : list Event) : bytes := Str.join (body_writes tr).

(** The chunks taken from the upstream iterator, in order. *)
Fixpoint chunks_read (tr : list Event) : list bytes :=
  match tr with
  | [] => []
  | IterChunk c :: r => c :: chunks_read r
  | _ :: r => chunks_read r
  end.

Definition is_upstream_call (e : Event) : bool :=
  match e with
  | RequestsPost _ | Urlopen _ => true
  | _ => false
  end.

Definition is_rfile_read (e : Event) : bool :=
  match e with
  | RfileRead _ _ => true
  | _ => false
  end.

(** Nothing was forwarded: no call of the HTTP client, no read of the
    request body. *)
Definition no_forwarding (tr : list Event) : bool :=
  forallb (fun e => negb (is_upstream_call e || is_rfile_read e)) tr.

(** The status codes and the header fields of a header block. *)
Fixpoint status_codes (lines : list HeadLine) : list Z :=
  match lines with
  | [] => []
  | StatusLine _ code _ :: r => code :: status_codes r
  | Header _ _ :: r => status_codes r
  end.

Fixpoint fields (lines : list HeadLine) : list (string * string) :=
  match lines with
  | [] => []
  | StatusLine _ _ _ :: r => fields r
  | Header k v :: r => (k, v) :: fields r
  end.

Definition field_eqb (a b : string * string) : bool :=
  String.eqb (fst a) (fst b) && String.eqb (snd a) (snd b).

(** The header block has the field [k: v]. *)
Definition has_field (lines : list HeadLine) (kv : string * string) : bool :=
  existsb (field_eqb kv) (fields lines).

(** The header block has a field named [k], whatever the case of the
    letters. *)
Definition has_field_named (lines : list HeadLine) (k : string) : bool :=
  existsb (fun kv => String.eqb (Str.lower (fst kv)) (Str.lower k)) (fields lines).

(** The table of section 6 of the specification. *)
Definition cors_table : list (string * string) :=
  [ ("Access-Control-Allow-Origin", "*");
    ("Access-Control-Allow-Methods", "GET, POST, PUT, DELETE, OPTIONS");
    ("Access-Control-Allow-Headers", "Content-Type, Authorization, X-DashScope-SSE");
    ("Access-Control-Max-Age", "86400") ].

(** What [send_cors_headers] of each class sends. *)
Definition cors_headers (h : Handler) : list (string * string) :=
  match h with
  | SimpleProxyHandler => cors_table
  | CORSProxyHandler =>
      [ ("Access-Control-Allow-Origin", "*");
        ("Access-Control-Allow-Methods", "GET, POST, PUT, DELETE, OPTIONS");
        ("Access-Control-Allow-Headers", "Content-Type, Authorization");
        ("Access-Control-Max-Age", "86400") ]
  end.

(** Every header block of the trace has every field of [t], and there is a
    header block. *)
Definition every_head_has (t : list (string * string)) (tr : list Event) : bool :=
  negb (Nat.eqb (List.length (heads tr)) 0)
  && forallb (fun lines => forallb (has_field lines) t) (heads tr).

(** The lines [send_response] buffers. *)
Definition response_lines (rt : Runtime) (code : Z) (message : string) : list HeadLine :=
  [ StatusLine protocol_version code message;
    Header "Server" (version_string rt);
    Header "Date" (date_time_string rt) ].

(** The reason phrase [send_response] takes from the table. *)
Definition reason_phrase (rt : Runtime) (code : Z) : string :=
  match responses rt code with
  | Some (shortmsg, _) => shortmsg
  | None => ""
  end.

Definition as_lines (l : list (string * string)) : list HeadLine :=
  map (fun kv => Header (fst kv) (snd kv)) l.

(** ** A runtime and some upstreams to run the handlers on *)

Fixpoint decimal_value (acc : Z) (s : string) : option Z :=
  match s with
  | EmptyString => Some acc
  | String c r =>
      let n := nat_of_ascii c in
      if (Nat.leb 48 n && Nat.leb n 57)%bool
      then decimal_value (10 * acc + Z.of_nat (n - 48)) r
      else None
  end.

(** CPython 3.11 on a 64-bit machine, on the inputs of the examples below:
    the entries of [responses] for the codes they meet, [int] on a literal
    made of decimal digits, or a literal of plain letters that it refuses,
    and a reader that refuses the sizes from which [OverflowError] is
    raised. *)
Definition sample_runtime : Runtime :=
  {| version_string := "BaseHTTP/0.6 Python/3.11.2";
     date_time_string := "Wed, 04 Nov 2026 09:00:00 GMT";
     responses := fun code =>
       if code =? 200 then Some ("OK", "Request fulfilled, document follows")
       else if code =? 401 then Some ("Unauthorized", "No permission -- see authorization schemes")
       else if code =? 404 then Some ("Not Found", "Nothing matches the given URI")
       else if code =? 500 then Some ("Internal Server Error", "Server got itself in trouble")
       else None;
     py_int := fun s =>
       match s, decimal_value 0 s with
       | String _ _, Some n => inl n
       | _, _ => inr ("invalid literal for int() with base 10: '" +:+ s +:+ "'")
       end;
     rfile_read_error := fun n =>
       if n >=? 2 ^ 63 then Some "cannot fit 'int' into an index-sized integer"
       else if n >=? 2 ^ 63 - 33 then Some "byte string is too large"
       else None |}.

(** An upstream that answers every call with the same response. *)
Definition answering (r : Response) (u : UrlResponse) : World :=
  {| requests_post := fun _ => inl r; urlopen := fun _ => inl u |}.

(** An upstream that cannot be reached. *)
Definition unreachable (e : Exn) : World :=
  {| requests_post := fun _ => inr e; urlopen := fun _ => inr e |}.

(** The requests and responses of the examples. *)
Definition preflight_request : Request :=
  {| command := OPTIONS; path := "/anything"; headers := [("Host", "localhost:3001")];
     body_stream := "" |}.

Definition stray_request : Request :=
  {| command := POST; path := "/foo"; headers := [("Content-Length", "2")];
     body_stream := "{}" |}.

Definition bare_prefix_request : Request :=
  {| command := POST; path := "/api/dashscope"; headers := [("Content-Length", "2")];
     body_stream := "{}" |}.

Definition streaming_request : Request :=
  {| command := POST;
     path := "/api/dashscope/v1/foo?x=1";
     headers := [ ("Host", "localhost:3001"); ("Content-Length", "2");
                  ("Authorization", "Bearer k"); ("x-dashscope-sse", "enable") ];
     body_stream := "{}" |}.

Definition buffered_request : Request :=
  {| command := POST;
     path := "/api/dashscope/v1/foo?x=1";
     headers := [ ("Host", "localhost:3001"); ("Content-Length", "2");
                  ("Authorization", "Bearer k"); ("X-DashScope-SSE", "disable") ];
     body_stream := "{}" |}.

Definition sample_response : Response :=
  {| status_code := 200;
     resp_headers := [ ("Content-Type", "text/event-stream");
                       ("Content-Encoding", "gzip");
                       ("Transfer-Encoding", "chunked") ];
     content := "data: hello";
     iter_content := fun _ => (["data: "; ""; "hello"], None) |}.

Definition sample_url_response : UrlResponse :=
  {| getcode := 200;
     url_headers := [ ("Content-Type", "application/json");
                      ("Content-Encoding", "gzip");
                      ("Access-Control-Allow-Origin", "https://example.org") ];
     read := inl "{}" |}.

Definition nested_prefix_request : Request :=
  {| command := POST;
     path := "/api/dashscope/v1/foo?next=/api/dashscope/bar";
     headers := [("Content-Length", "2")];
     body_stream := "{}" |}.

Definition repeated_header_request : Request :=
  {| command := POST;
     path := "/api/dashscope/v1/foo";
     headers := [ ("Content-Length", "2");
                  ("Accept", "text/plain");
                  ("Accept", "application/json") ];
     body_stream := "{}" |}.

Definition preflight_api_request : Request :=
  {| command := OPTIONS; path := "/api/dashscope/v1/foo";
     headers := [ ("Host", "localhost:3001");
                  ("Access-Control-Request-Headers", "x-dashscope-sse") ];
     body_stream := "" |}.

Definition oversized_length_request : Request :=
  {| command := POST;
     path := "/api/dashscope/v1/foo";
     headers := [("Content-Length", "99999999999999999999")];
     body_stream := "{}" |}.


Definition no_length_request : Request :=
  {| command := POST;
     path := "/api/dashscope/v1/foo";
     headers := [("Authorization", "Bearer k")];
     body_stream := "{}" |}.

Definition bad_length_request : Request :=
  {| command := POST;
     path := "/api/dashscope/v1/foo";
     headers := [("Content-Length", "abc")];
     body_stream := "{}" |}.

Definition unauthorized_response : Response :=
  {| status_code := 401;
     resp_headers := [("Content-Type", "application/json")];
     content := "{}";
     iter_content := fun _ => (["{}"], None) |}.

Definition failing_stream_response : Response :=
  {| status_code := 200;
     resp_headers := [("Content-Type", "text/event-stream")];
     content := "data: hello";
     iter_content := fun _ => (["data: "], Some (Exception "Connection broken")) |}.

Definition unreadable_url_response : UrlResponse :=
  {| getcode := 200;
     url_headers := [("Content-Type", "application/json")];
     read := inr (Exception "IncompleteRead(0 bytes read)") |}.

(** ** Vocabulary of the statements *)

(** The test at the head of [do_POST]. *)
Definition accepted (p : string) : bool := Str.startswith p "/api/dashscope/".

(** The request header denylist, on a field name. *)
Definition denied (k : string) : bool :=
  Str.mem (Str.lower k) ["host"; "origin"; "referer"; "content-length"].

(** The inbound fields that pass the denylist, in order. *)
Definition allowed (items : list (string * string)) : list (string * string) :=
  List.filter (fun kv => negb (denied (fst kv))) items.

(** The response header denylist of each class, as the fields it lets
    through. *)
Definition relayed (h : Handler) (items : list (string * string)) : list (string * string) :=
  match h with
  | SimpleProxyHandler =>
      List.filter
        (fun kv => negb (Str.mem (Str.lower (fst kv))
                           ["access-control-allow-origin"; "content-encoding";
                            "transfer-encoding"])) items
  | CORSProxyHandler =>
      List.filter
        (fun kv => negb (Str.mem (Str.lower (fst kv)) ["access-control-allow-origin"])) items
  end.

(** The request carries [X-DashScope-SSE: enable]: some field has that name,
    whatever the case of its letters, and exactly that value. *)
Definition sse_enabled (items : list (string * string)) : bool :=
  existsb (fun kv => String.eqb (Str.lower (fst kv)) "x-dashscope-sse"
                     && String.eqb (snd kv) "enable") items.

(** [int(self.headers.get('Content-Length', 0))]: the number, or the text of
    the [ValueError]. *)
Definition declared_length (rt : Runtime) (req : Request) : Z + bytes :=
  match headers_get (headers req) "Content-Length" with
  | Some v => py_int rt v
  | None => inl 0
  end.

(** The exception of the read the handler makes for a declared length, if
    that read raises; a length that is not positive is not read. *)
Definition read_failure (rt : Runtime) (n : Z) : option bytes :=
  if n >? 0 then rfile_read_error rt n else None.

(** The body the handler reads for a declared length, and the read it makes
    for it, when the read does not raise. *)
Definition post_data (req : Request) (n : Z) : bytes :=
  if n >? 0 then Str.take (Z.to_nat n) (body_stream req) else "".

Definition read_events (req : Request) (n : Z) : list Event :=
  if n >? 0 then [RfileRead n (Str.take (Z.to_nat n) (body_stream req))] else [].

(** The value a dict keyed by [key] holds under [k] after the fields of
    [items] were stored in order: the value of the last field with that
    key. *)
Fixpoint last_value (key : string -> string) (items : list (string * string))
    (k : string) : option string :=
  match items with
  | [] => None
  | (h, v) :: r =>
      match last_value key r k with
      | Some x => Some x
      | None => if String.eqb (key h) k then Some v else None
      end
  end.

(** The client call of each class for a request and its declared length. *)
Definition simple_call (req : Request) (n : Z) : RequestsCall :=
  {| rq_url := SimpleProxy.target_url (path req);
     rq_data := post_data req n;
     rq_headers := fst (SimpleProxy.prepare_headers (headers req));
     rq_verify := false;
     rq_timeout := 30;
     rq_stream := snd (SimpleProxy.prepare_headers (headers req)) |}.

Definition urllib_call (req : Request) (n : Z) : UrlopenCall :=
  {| uo_req :=
       fold_left CORSProxy.header_step (headers req)
         {| full_url := CORSProxy.target_url (path req);
            data := post_data req n;
            method := "POST";
            req_headers := ∅ |};
     uo_context := {| check_hostname := false; verify_mode := CERT_NONE |} |}.

(** The calls of the HTTP clients in a trace. *)
Fixpoint requests_calls (tr : list Event) : list RequestsCall :=
  match tr with
  | [] => []
  | RequestsPost c :: r => c :: requests_calls r
  | _ :: r => requests_calls r
  end.

Fixpoint urlopen_calls (tr : list Event) : list UrlopenCall :=
  match tr with
  | [] => []
  | Urlopen c :: r => c :: urlopen_calls r
  | _ :: r => urlopen_calls r
  end.

(** The header block of a relayed response and of a 500 answer. *)
Definition relay_head (rt : Runtime) (h : Handler) (code : Z)
    (kept : list (string * string)) : list HeadLine :=
  response_lines rt code (reason_phrase rt code)
  ++ as_lines (cors_headers h) ++ as_lines kept.

Definition error_head (rt : Runtime) (h : Handler) : list HeadLine :=
  relay_head rt h 500 [("Content-Type", "application/json")].

(** The page [send_error] writes, and the header block before it. *)
Definition error_page (rt : Runtime) (code : Z) (message : string) : bytes :=
  utf8_encode
    (error_message_format code (Str.html_escape message)
       (Str.html_escape
          (match responses rt code with Some r => snd r | None => "???" end))).

Definition not_found_head (rt : Runtime) : list HeadLine :=
  response_lines rt 404 "Not Found"
  ++ [ Header "Connection" "close";
       Header "Content-Type" "text/html;charset=utf-8";
       Header "Content-Length"
         (Str.of_Z (Z.of_nat (String.length (error_page rt 404 "Not Found")))) ].

(** What the streaming loop does with one chunk. *)
Definition chunk_events (c : bytes) : list Event :=
  IterChunk c :: (if negb (String.eqb c "") then [WfileWrite c; WfileFlush] else []).

(** A state after more lines were buffered, after more events, and after
    [end_headers] wrote the block [lines]. *)
Definition buffered (s : State) (lines : list HeadLine) : State :=
  {| headers_buffer := headers_buffer s ++ lines; rfile := rfile s; trace := trace s |}.

Definition traced (s : State) (evs : list Event) : State :=
  {| headers_buffer := headers_buffer s; rfile := rfile s; trace := trace s ++ evs |}.

Definition flushed (s : State) (lines : list HeadLine) : State :=
  {| headers_buffer := []; rfile := rfile s; trace := trace s ++ [WfileHead lines] |}.

(** The body of the streaming loop. *)
Definition stream_body (chunk : bytes) : M unit :=
  if negb (String.eqb chunk "") then wfile_write chunk >> wfile_flush else ret tt.

(** What the [except] clauses of each class do with an exception. *)
Definition simple_except (rt : Runtime) (e : Exn) : list Event :=
  [ WfileHead (error_head rt SimpleProxyHandler);
    WfileWrite (error_json
                  (match e with RequestException _ => "Request failed" | _ => "Proxy error" end)
                  (str_e e)) ].

Definition cors_except (rt : Runtime) (e : Exn) : list Event :=
  match e with
  | HTTPError code reason body =>
      [ WfileHead (relay_head rt CORSProxyHandler code []);
        WfileWrite
          (match body with
           | Some error_body => error_body
           | None => "{" +:+ dq +:+ "error" +:+ dq +:+ ": " +:+ dq +:+ "HTTP "
                     +:+ Str.of_Z code +:+ ": " +:+ reason +:+ dq +:+ "}"
           end) ]
  | _ =>
      [ WfileHead (error_head rt CORSProxyHandler);
        WfileWrite (error_json "Proxy error" (str_e e)) ]
  end.

(** The path rewrite in the words of the specification: the prefix is
    removed, the rest is put after the origin as it is. *)
Definition spec_target_url (p : string) : string :=
  "https://dashscope.aliyuncs.com" +:+ Str.drop (String.length "/api/dashscope") p.

(** The opening of a body that is a JSON object whose key [error] starts
    with [Request failed:]. *)
Definition request_failed_opening : bytes :=
  "{" +:+ dq +:+ "error" +:+ dq +:+ ": " +:+ dq +:+ "Request failed:".

(** [old] occurs somewhere in [s]. *)
Fixpoint occurs (old s : string) : bool :=
  match s with
  | EmptyString => Str.startswith s old
  | String _ r => Str.startswith s old || occurs old r
  end.

(** An outbound header dict [out], keyed by [key] of the field name, forwards
    the inbound fields [items]: no denied name is a key; a field that is not
    denied, and whose key no later field that is not denied has, is there
    with its value; and every entry is the value of an inbound field that is
    not denied. *)
Definition forwards (key : string -> string) (items : list (string * string))
    (out : gmap string string) : Prop :=
  (forall k, denied k = true -> out !! k = None)
  /\ (forall pre h v post,
        items = pre ++ (h, v) :: post ->
        denied h = false ->
        (forall kv, In kv (allowed post) -> key (fst kv) <> key h) ->
        out !! key h = Some v)
  /\ (forall k v,
        out !! k = Some v ->
        exists h, In (h, v) items /\ denied h = false /\ key h = k).

(** What the connection still holds after the handler read the body for a
    declared length. *)
Definition remaining (req : Request) (n : Z) : bytes :=
  if n >? 0 then Str.drop (Z.to_nat n) (body_stream req) else body_stream req.

(** The state a handler method leaves, and what it returned or raised. *)
Definition final (h : Handler) (rt : Runtime) (w : World) (req : Request) : State :=
  snd (dispatch h rt w req (initial_state req)).

(** The fallback body of the [HTTPError] clause,
    [f'{{"error": "HTTP {e.code}: {e.reason}"}}'.encode()]. *)
Definition http_error_json (code : Z) (reason : bytes) : bytes :=
  "{" +:+ dq +:+ "error" +:+ dq +:+ ": " +:+ dq +:+ "HTTP "
  +:+ Str.of_Z code +:+ ": " +:+ reason +:+ dq +:+ "}".

(** Events of the streaming path only, and a trace without any. *)
Definition is_streaming_event (e : Event) : bool :=
  match e with
  | IterChunk _ | WfileFlush => true
  | _ => false
  end.

Definition no_streaming (tr : list Event) : bool :=
  forallb (fun e => negb (is_streaming_event e)) tr.

(** ** Loops and blocks of the handlers *)

Lemma for_each_send (f : string * string -> M unit) (keep : string * string -> bool) :
  (forall kv s, f kv s = if keep kv then send_header (fst kv) (snd kv) s else ret tt s) ->
  forall l s,
    for_each l f s = (inl tt, buffered s (as_lines (List.filter keep l))).
Proof.
  intros Hf l; induction l as [|kv l IH]; intros s; simpl.
  - unfold ret, buffered. simpl. rewrite app_nil_r. now destruct s.
  - unfold bind. rewrite Hf. destruct (keep kv); simpl.
    + rewrite IH. unfold buffered. simpl. now rewrite <- app_assoc.
    + apply IH.
Qed.

Lemma for_each_copy (h : Handler) l s :
  for_each l (match h with
              | SimpleProxyHandler => SimpleProxy.copy_header
              | CORSProxyHandler => CORSProxy.copy_header
              end) s =
  (inl tt, buffered s (as_lines (relayed h l))).
Proof.
  destruct h; unfold relayed; apply for_each_send; intros [k v] s';
    unfold SimpleProxy.copy_header, CORSProxy.copy_header; simpl;
    match goal with |- context [negb ?b] => destruct b end; reflexivity.
Qed.

Lemma for_iter_stream chunks failure s :
  for_iter chunks failure stream_body s =
  (match failure with Some e => inr e | None => inl tt end,
   traced s (flat_map chunk_events chunks)).
Proof.
  revert s; induction chunks as [|c r IH]; intros s; simpl.
  - unfold traced. simpl. rewrite app_nil_r. destruct failure; destruct s; reflexivity.
  - unfold bind, emit, stream_body, chunk_events. simpl.
    destruct (String.eqb c ""); simpl; unfold bind; simpl; rewrite IH;
      unfold traced; simpl; repeat rewrite <- app_assoc; reflexivity.
Qed.

(** ** Steps of the handlers *)

Lemma prepare_headers_sse items :
  snd (SimpleProxy.prepare_headers items) = sse_enabled items.
Proof.
  unfold SimpleProxy.prepare_headers.
  assert (G : forall l d b,
             snd (fold_left SimpleProxy.header_step l (d, b)) = b || sse_enabled l).
  { induction l as [|[k v] l IH]; intros d b; simpl.
    - now rewrite orb_false_r.
    - destruct (String.eqb (Str.lower k) "x-dashscope-sse") eqn:Ek.
      + apply String.eqb_eq in Ek. rewrite Ek. simpl.
        rewrite IH. destruct (String.eqb v "enable"), b; reflexivity.
      + simpl. destruct (negb _); rewrite IH; reflexivity. }
  apply G.
Qed.

Lemma bind_ok {A B} (m : M A) (k : A -> M B) s a s' :
  m s = (inl a, s') -> bind m k s = k a s'.
Proof. intros H. unfold bind. now rewrite H. Qed.

Lemma bind_raise {A B} (m : M A) (k : A -> M B) s e s' :
  m s = (inr e, s') -> bind m k s = (inr e, s').
Proof. intros H. unfold bind. now rewrite H. Qed.

Ltac run_lines :=
  cbv [send_response send_response_only send_header append_line bind ret emit
       end_headers wfile_write wfile_flush
       SimpleProxy.send_cors_headers CORSProxy.send_cors_headers
       buffered traced flushed headers_buffer rfile trace
       response_lines reason_phrase relay_head error_head];
  repeat rewrite <- app_assoc.

Lemma send_response_run rt code s :
  send_response rt code None s =
  (inl tt, buffered s (response_lines rt code (reason_phrase rt code))).
Proof.
  destruct s. run_lines. reflexivity.
Qed.

Lemma send_cors_run h s :
  match h with
  | SimpleProxyHandler => SimpleProxy.send_cors_headers
  | CORSProxyHandler => CORSProxy.send_cors_headers
  end s = (inl tt, buffered s (as_lines (cors_headers h))).
Proof.
  destruct s, h; run_lines; reflexivity.
Qed.

(** The header block of a relayed response, as one step. *)
Lemma relay_head_step h rt code items (k : unit -> M unit) s :
  headers_buffer s = [] ->
  (send_response rt code None >>
   match h with
   | SimpleProxyHandler => SimpleProxy.send_cors_headers
   | CORSProxyHandler => CORSProxy.send_cors_headers
   end >>
   for_each items (match h with
                   | SimpleProxyHandler => SimpleProxy.copy_header
                   | CORSProxyHandler => CORSProxy.copy_header
                   end) >>
   bind end_headers k) s =
  k tt (flushed s (relay_head rt h code (relayed h items))).
Proof.
  intros Hb.
  rewrite (bind_ok _ _ _ _ _ (send_response_run rt code s)).
  rewrite (bind_ok _ _ _ _ _ (send_cors_run h _)).
  rewrite (bind_ok _ _ _ _ _ (for_each_copy h items _)).
  destruct s as [b rf tr]. simpl in Hb. subst b. run_lines. reflexivity.
Qed.

(** The 500 answer of the [except] clauses, as one step. *)
Lemma error_answer h rt what msg s :
  headers_buffer s = [] ->
  (send_response rt 500 None >>
   match h with
   | SimpleProxyHandler => SimpleProxy.send_cors_headers
   | CORSProxyHandler => CORSProxy.send_cors_headers
   end >>
   send_header "Content-Type" "application/json" >>
   end_headers >>
   wfile_write (error_json what msg)) s =
  (inl tt, traced (flushed s (error_head rt h)) [WfileWrite (error_json what msg)]).
Proof.
  intros Hb.
  rewrite (bind_ok _ _ _ _ _ (send_response_run rt 500 s)).
  rewrite (bind_ok _ _ _ _ _ (send_cors_run h _)).
  destruct s as [b rf tr]. simpl in Hb. subst b. run_lines. reflexivity.
Qed.

Lemma relay_head_simple rt code items (k : unit -> M unit) s :
  headers_buffer s = [] ->
  (send_response rt code None >>
   SimpleProxy.send_cors_headers >>
   for_each items SimpleProxy.copy_header >>
   bind end_headers k) s =
  k tt (flushed s (relay_head rt SimpleProxyHandler code (relayed SimpleProxyHandler items))).
Proof. exact (relay_head_step SimpleProxyHandler rt code items k s). Qed.

Lemma relay_head_cors rt code items (k : unit -> M unit) s :
  headers_buffer s = [] ->
  (send_response rt code None >>
   CORSProxy.send_cors_headers >>
   for_each items CORSProxy.copy_header >>
   bind end_headers k) s =
  k tt (flushed s (relay_head rt CORSProxyHandler code (relayed CORSProxyHandler items))).
Proof. exact (relay_head_step CORSProxyHandler rt code items k s). Qed.

Lemma error_answer_simple rt what msg s :
  headers_buffer s = [] ->
  (send_response rt 500 None >>
   SimpleProxy.send_cors_headers >>
   send_header "Content-Type" "application/json" >>
   end_headers >>
   wfile_write (error_json what msg)) s =
  (inl tt, traced (flushed s (error_head rt SimpleProxyHandler))
             [WfileWrite (error_json what msg)]).
Proof. exact (error_answer SimpleProxyHandler rt what msg s). Qed.

Lemma error_answer_cors rt what msg s :
  headers_buffer s = [] ->
  (send_response rt 500 None >>
   CORSProxy.send_cors_headers >>
   send_header "Content-Type" "application/json" >>
   end_headers >>
   wfile_write (error_json what msg)) s =
  (inl tt, traced (flushed s (error_head rt CORSProxyHandler))
             [WfileWrite (error_json what msg)]).
Proof. exact (error_answer CORSProxyHandler rt what msg s). Qed.

(** [int(self.headers.get('Content-Length', 0))], as one step. *)
Lemma length_step rt req s :
  match headers_get (headers req) "Content-Length" with
  | Some v => int rt v
  | None => ret 0
  end s =
  (match declared_length rt req with inl n => inl n | inr msg => inr (Exception msg) end, s).
Proof.
  unfold declared_length, int.
  destruct (headers_get (headers req) "Content-Length") as [v|]; [|reflexivity].
  destruct (py_int rt v); reflexivity.
Qed.

(** The state after the body was read. *)
Lemma read_step rt req n :
  read_failure rt n = None ->
  (if n >? 0 then rfile_read rt n else ret "") (initial_state req) =
  (inl (post_data req n),
   {| headers_buffer := [];
      rfile := if n >? 0 then Str.drop (Z.to_nat n) (body_stream req) else body_stream req;
      trace := read_events req n |}).
Proof.
  unfold read_failure, post_data, read_events, rfile_read.
  destruct (n >? 0); [intros ->|]; reflexivity.
Qed.

(** The read that raises leaves the state as it was. *)
Lemma read_step_raises rt req n msg :
  read_failure rt n = Some msg ->
  (if n >? 0 then rfile_read rt n else ret "") (initial_state req) =
  (inr (Exception msg), initial_state req).
Proof.
  unfold read_failure, rfile_read.
  destruct (n >? 0); [intros ->; reflexivity|discriminate].
Qed.

Lemma run_simple_accepted rt w req n :
  command req = POST -> accepted (path req) = true ->
  declared_length rt req = inl n -> read_failure rt n = None ->
  run SimpleProxyHandler rt w req =
  read_events req n ++ RequestsPost (simple_call req n) ::
  match requests_post w (simple_call req n) with
  | inl r =>
      WfileHead (relay_head rt SimpleProxyHandler (status_code r)
                   (relayed SimpleProxyHandler (resp_headers r))) ::
      (if sse_enabled (headers req)
       then flat_map chunk_events (fst (iter_content r 1024))
       else [WfileWrite (content r)])
  | inr e => simple_except rt e
  end.
Proof.
  intros Hc Ha Hn Hr. unfold run, dispatch. rewrite Hc.
  unfold SimpleProxy.do_POST. unfold accepted in Ha. rewrite Ha.
  cbv [negb]. unfold try_except.
  assert (Hl := length_step rt req (initial_state req)). rewrite Hn in Hl.
  rewrite (bind_ok _ _ _ _ _ Hl).
  rewrite (bind_ok _ _ _ _ _ (read_step rt req n Hr)).
  unfold simple_call. rewrite <- prepare_headers_sse.
  destruct (SimpleProxy.prepare_headers (headers req)) as [hd st]. cbv [fst snd].
  set (call := {| rq_url := SimpleProxy.target_url (path req) |}).
  set (s1 := {| headers_buffer := []; trace := read_events req n |}).
  destruct (requests_post w call) as [r|e] eqn:Ew.
  - assert (Hp : (emit (RequestsPost call) >>
                  match @inl Response Exn r with
                  | inl r => ret r
                  | inr e => raise e
                  end) s1 = (inl r, traced s1 [RequestsPost call])).
    { reflexivity. }
    rewrite (bind_ok _ _ _ _ _ Hp).
    rewrite relay_head_simple by reflexivity.
    destruct st.
    + destruct (iter_content r 1024) as [chunks failure].
      change (fun chunk : bytes => if negb (String.eqb chunk "")
                                   then wfile_write chunk >> wfile_flush else ret tt)
        with stream_body.
      unfold try_except. rewrite for_iter_stream.
      destruct failure; simpl; rewrite <- !app_assoc; reflexivity.
    + simpl. rewrite <- !app_assoc. reflexivity.
  - assert (Hp : (emit (RequestsPost call) >>
                  match @inr Response Exn e with
                  | inl r => ret r
                  | inr e => raise e
                  end) s1 = (inr e, traced s1 [RequestsPost call])).
    { reflexivity. }
    rewrite (bind_raise _ _ _ _ _ Hp).
    unfold simple_except.
    destruct e; rewrite error_answer_simple by reflexivity;
      simpl; rewrite <- !app_assoc; reflexivity.
Qed.

Lemma run_int_error h rt w req msg :
  command req = POST -> accepted (path req) = true ->
  declared_length rt req = inr msg ->
  run h rt w req =
  [WfileHead (error_head rt h); WfileWrite (error_json "Proxy error" msg)].
Proof.
  intros Hc Ha Hn. unfold run, dispatch. rewrite Hc.
  assert (Hl := length_step rt req (initial_state req)). rewrite Hn in Hl.
  unfold accepted in Ha.
  destruct h; unfold SimpleProxy.do_POST, CORSProxy.do_POST; rewrite Ha;
    cbv [negb]; unfold try_except;
    rewrite (bind_raise _ _ _ _ _ Hl);
    [rewrite error_answer_simple by reflexivity
    |rewrite error_answer_cors by reflexivity]; reflexivity.
Qed.

(** The run whose read of the body raises. *)
Lemma run_read_error h rt w req n msg :
  command req = POST -> accepted (path req) = true ->
  declared_length rt req = inl n -> read_failure rt n = Some msg ->
  run h rt w req =
  [WfileHead (error_head rt h); WfileWrite (error_json "Proxy error" msg)].
Proof.
  intros Hc Ha Hn Hr. unfold run, dispatch. rewrite Hc.
  assert (Hl := length_step rt req (initial_state req)). rewrite Hn in Hl.
  unfold accepted in Ha.
  destruct h; unfold SimpleProxy.do_POST, CORSProxy.do_POST; rewrite Ha;
    cbv [negb]; unfold try_except;
    rewrite (bind_ok _ _ _ _ _ Hl);
    rewrite (bind_raise _ _ _ _ _ (read_step_raises rt req n msg Hr));
    [rewrite error_answer_simple by reflexivity
    |rewrite error_answer_cors by reflexivity]; reflexivity.
Qed.

Lemma run_cors_accepted rt w req n :
  command req = POST -> accepted (path req) = true ->
  declared_length rt req = inl n -> read_failure rt n = None ->
  run CORSProxyHandler rt w req =
  read_events req n ++ Urlopen (urllib_call req n) ::
  match urlopen w (urllib_call req n) with
  | inl u =>
      WfileHead (relay_head rt CORSProxyHandler (getcode u)
                   (relayed CORSProxyHandler (url_headers u))) ::
      match read u with
      | inl b => [WfileWrite b]
      | inr e => cors_except rt e
      end
  | inr e => cors_except rt e
  end.
Proof.
  intros Hc Ha Hn Hr. unfold run, dispatch. rewrite Hc.
  unfold CORSProxy.do_POST. unfold accepted in Ha. rewrite Ha.
  cbv [negb]. unfold try_except.
  assert (Hl := length_step rt req (initial_state req)). rewrite Hn in Hl.
  rewrite (bind_ok _ _ _ _ _ Hl).
  rewrite (bind_ok _ _ _ _ _ (read_step rt req n Hr)).
  unfold urllib_call. cbv [create_default_context check_hostname verify_mode].
  set (call := {| uo_req := _ |}).
  set (s1 := {| headers_buffer := []; trace := read_events req n |}).
  assert (He : forall e s, headers_buffer s = [] ->
            trace (snd (match e with
             | HTTPError code reason body =>
                 send_response rt code None >>
                 CORSProxy.send_cors_headers >>
                 end_headers >>
                 match body with
                 | Some error_body => wfile_write error_body
                 | None =>
                     wfile_write
                       ("{" +:+ dq +:+ "error" +:+ dq +:+ ": " +:+ dq +:+ "HTTP "
                        +:+ Str.of_Z code +:+ ": " +:+ reason +:+ dq +:+ "}")
                 end
             | _ =>
                 send_response rt 500 None >>
                 CORSProxy.send_cors_headers >>
                 send_header "Content-Type" "application/json" >>
                 end_headers >>
                 wfile_write (error_json "Proxy error" (str_e e))
             end s)) = trace s ++ cors_except rt e).
  { intros e s Hb. destruct s as [b rf tr]. simpl in Hb. subst b.
    destruct e as [m|code reason [body|]|m]; run_lines; reflexivity. }
  destruct (urlopen w call) as [u|e] eqn:Ew.
  - assert (Hp : (emit (Urlopen call) >>
                  match @inl UrlResponse Exn u with
                  | inl r => ret r
                  | inr e => raise e
                  end) s1 = (inl u, traced s1 [Urlopen call])).
    { reflexivity. }
    rewrite (bind_ok _ _ _ _ _ Hp).
    rewrite relay_head_cors by reflexivity.
    destruct (read u) as [b|e].
    + simpl. rewrite <- !app_assoc. reflexivity.
    + unfold bind, raise. rewrite He by reflexivity.
      simpl. rewrite <- !app_assoc. reflexivity.
  - assert (Hp : (emit (Urlopen call) >>
                  match @inr UrlResponse Exn e with
                  | inl r => ret r
                  | inr e => raise e
                  end) s1 = (inr e, traced s1 [Urlopen call])).
    { reflexivity. }
    rewrite (bind_raise _ _ _ _ _ Hp).
    rewrite He by reflexivity. simpl. rewrite <- !app_assoc. reflexivity.
Qed.

(** ** The runs that never reach the upstream *)

Lemma error_page_nonempty rt code message :
  String.eqb (error_page rt code message) "" = false.
Proof. reflexivity. Qed.

Lemma run_options h rt w req :
  command req = OPTIONS ->
  run h rt w req = [WfileHead (relay_head rt h 200 [])].
Proof.
  intros Hc. unfold run, dispatch. rewrite Hc. destruct h; reflexivity.
Qed.

Lemma run_rejected h rt w req :
  command req = POST -> accepted (path req) = false ->
  run h rt w req =
  [WfileHead (not_found_head rt); WfileWrite (error_page rt 404 "Not Found")].
Proof.
  intros Hc Ha. unfold run, dispatch. rewrite Hc.
  assert (Hs : trace (snd (send_error rt 404 (Some "Not Found") (initial_state req))) =
               [WfileHead (not_found_head rt); WfileWrite (error_page rt 404 "Not Found")]).
  { unfold send_error, not_found_head, error_page.
    destruct (responses rt 404) as [[shortmsg longmsg]|]; reflexivity. }
  unfold accepted in Ha.
  destruct h; unfold SimpleProxy.do_POST, CORSProxy.do_POST; rewrite Ha; exact Hs.
Qed.

(** The header block of the 404 answer has none of the CORS fields:
    [send_error] does not go through [send_cors_headers]. *)
Lemma not_found_head_without_cors rt :
  forallb (fun kv => negb (has_field_named (not_found_head rt) (fst kv))) cors_table = true.
Proof. reflexivity. Qed.

(** ** Reading the traces of the runs *)

Lemma startswith_spec s p :
  Str.startswith s p = true <-> exists r, s = p +:+ r.
Proof.
  revert s; induction p as [|b p IH]; intros s.
  - split; [intros _; now exists s|intros _; now destruct s].
  - destruct s as [|a s]; simpl.
    + split; [discriminate|intros [r Hr]; discriminate].
    + rewrite andb_true_iff, IH. split.
      * intros [Hab [r ->]]. apply Ascii.eqb_eq in Hab. subst. now exists r.
      * intros [r Hr]. injection Hr as -> ->. split; [apply Ascii.eqb_refl|now exists r].
Qed.

Lemma accepted_suffix suffix :
  accepted ("/api/dashscope" +:+ suffix) = Str.startswith suffix "/".
Proof. reflexivity. Qed.

Lemma heads_app a b : heads (a ++ b) = heads a ++ heads b.
Proof.
  induction a as [|e a IH]; [reflexivity|].
  destruct e; simpl; rewrite IH; reflexivity.
Qed.

Lemma heads_read_events req n : heads (read_events req n) = [].
Proof. unfold read_events. destruct (n >? 0); reflexivity. Qed.

Lemma heads_chunks chunks : heads (flat_map chunk_events chunks) = [].
Proof.
  induction chunks as [|c r IH]; [reflexivity|].
  simpl. destruct (String.eqb c ""); simpl; exact IH.
Qed.

Lemma cors_in_relay_head rt h code kept :
  forallb (has_field (relay_head rt h code kept)) (cors_headers h) = true.
Proof. destruct h; reflexivity. Qed.

Lemma heads_simple_except rt e :
  heads (simple_except rt e) = [error_head rt SimpleProxyHandler].
Proof. reflexivity. Qed.

Lemma heads_cors_except rt e :
  exists code kept, heads (cors_except rt e) = [relay_head rt CORSProxyHandler code kept].
Proof.
  destruct e as [m|code reason body|m].
  - now exists 500, [("Content-Type", "application/json")].
  - now exists code, [].
  - now exists 500, [("Content-Type", "application/json")].
Qed.

(** Every header block of a run that passes the path test is a status line,
    [Server], [Date], the CORS fields of the class, and further fields; and
    there is such a block. *)
Lemma heads_of_run h rt w req :
  command req = OPTIONS \/ accepted (path req) = true ->
  heads (run h rt w req) <> []
  /\ Forall (fun lines => exists code kept, lines = relay_head rt h code kept)
       (heads (run h rt w req)).
Proof.
  intros Hreq.
  assert (one : forall code kept,
             [relay_head rt h code kept] <> []
             /\ Forall (fun lines => exists code kept, lines = relay_head rt h code kept)
                  [relay_head rt h code kept]).
  { intros code kept. split; [discriminate|]. constructor; [now exists code, kept|constructor]. }
  destruct (command req) eqn:Hc.
  - rewrite (run_options h rt w req Hc). apply one.
  - destruct Hreq as [Ho|Ha]; [discriminate|].
    destruct (declared_length rt req) as [n|msg] eqn:Hn.
    + destruct (read_failure rt n) as [rmsg|] eqn:Hr;
        [rewrite (run_read_error h rt w req n rmsg Hc Ha Hn Hr); apply one|].
      destruct h.
      * rewrite (run_simple_accepted rt w req n Hc Ha Hn Hr).
        rewrite heads_app, heads_read_events. cbn [heads app].
        destruct (requests_post w (simple_call req n)) as [r|e].
        -- cbn [heads].
           replace (heads (if sse_enabled (headers req)
                           then flat_map chunk_events (fst (iter_content r 1024))
                           else [WfileWrite (content r)])) with (@nil (list HeadLine)).
           ++ apply one.
           ++ destruct (sse_enabled (headers req)); [now rewrite heads_chunks|reflexivity].
        -- rewrite heads_simple_except. apply one.
      * rewrite (run_cors_accepted rt w req n Hc Ha Hn Hr).
        rewrite heads_app, heads_read_events. cbn [heads app].
        destruct (urlopen w (urllib_call req n)) as [u|e].
        -- cbn [heads]. destruct (read u) as [b|e].
           ++ apply one.
           ++ destruct (heads_cors_except rt e) as (code & kept & ->).
              split; [discriminate|].
              constructor; [now eexists _, _|]. apply one.
        -- destruct (heads_cors_except rt e) as (code & kept & ->). apply one.
    + rewrite (run_int_error h rt w req msg Hc Ha Hn). apply one.
Qed.

(** So every header block of such a run carries the CORS fields of the
    class. *)
Lemma cors_on_every_head h rt w req :
  command req = OPTIONS \/ accepted (path req) = true ->
  every_head_has (cors_headers h) (run h rt w req) = true.
Proof.
  intros Hreq. destruct (heads_of_run h rt w req Hreq) as [Hne Hall].
  unfold every_head_has. apply andb_true_iff. split.
  - destruct (heads (run h rt w req)); [contradiction|reflexivity].
  - apply forallb_forall. intros lines Hin.
    rewrite Forall_forall in Hall.
    destruct (Hall lines) as (code & kept & ->).
    + now apply list_elem_of_In.
    + apply cors_in_relay_head.
Qed.

(** ** The claims *)

(** C1, as amended.  Every answer of a handler to an OPTIONS request, and to
    a POST request whose path passes the prefix test (relayed response,
    buffered or streamed, and every 500 answer), carries the four CORS
    fields its class sends: for SimpleProxyHandler the values of the table
    of section 6; for CORSProxyHandler the same values except
    [Access-Control-Allow-Headers: Content-Type, Authorization]. *)
Theorem C1_cors_headers_of_each_class h rt w req :
  command req = OPTIONS \/ accepted (path req) = true ->
  every_head_has (cors_headers h) (run h rt w req) = true
  /\ cors_headers SimpleProxyHandler = cors_table
  /\ cors_headers CORSProxyHandler =
     [ ("Access-Control-Allow-Origin", "*");
       ("Access-Control-Allow-Methods", "GET, POST, PUT, DELETE, OPTIONS");
       ("Access-Control-Allow-Headers", "Content-Type, Authorization");
       ("Access-Control-Max-Age", "86400") ].
Proof.
  intros Hreq. split; [|split; reflexivity].
  now apply cors_on_every_head.
Qed.

(** The theorem at a streamed relay of SimpleProxyHandler. *)
Lemma C1_cors_headers_of_each_class_witness :
  (command streaming_request = OPTIONS \/ accepted (path streaming_request) = true)
  /\ every_head_has (cors_headers SimpleProxyHandler)
       (run SimpleProxyHandler sample_runtime (answering sample_response sample_url_response)
          streaming_request) = true.
Proof.
  split; [right; reflexivity|].
  apply (C1_cors_headers_of_each_class SimpleProxyHandler sample_runtime
           (answering sample_response sample_url_response) streaming_request).
  right; reflexivity.
Defined.

(** C1 as stated fails: the answer of CORSProxyHandler to a preflight has no
    [Access-Control-Allow-Headers] field with the value of the table. *)
Lemma C1_counterexample :
  every_head_has cors_table
    (run CORSProxyHandler sample_runtime (unreachable (Exception "unused"))
       preflight_request) = false.
Proof. vm_compute. reflexivity. Qed.

(** C9, as amended.  An OPTIONS request, whatever its path, is answered by
    one header block with status 200 and the four CORS fields its class
    sends, nothing else: no body is written, the body of the request is not
    read, and no client call is made.  The CORS fields of
    SimpleProxyHandler are those of the table of section 6; those of
    CORSProxyHandler are the same except
    [Access-Control-Allow-Headers: Content-Type, Authorization]. *)
Theorem C9_preflight h rt w req :
  command req = OPTIONS ->
  run h rt w req = [WfileHead (relay_head rt h 200 [])]
  /\ map status_codes (heads (run h rt w req)) = [[200]]
  /\ body_writes (run h rt w req) = []
  /\ response_body (run h rt w req) = ""
  /\ no_forwarding (run h rt w req) = true
  /\ every_head_has (cors_headers h) (run h rt w req) = true
  /\ cors_headers SimpleProxyHandler = cors_table
  /\ cors_headers CORSProxyHandler =
     [ ("Access-Control-Allow-Origin", "*");
       ("Access-Control-Allow-Methods", "GET, POST, PUT, DELETE, OPTIONS");
       ("Access-Control-Allow-Headers", "Content-Type, Authorization");
       ("Access-Control-Max-Age", "86400") ].
Proof.
  intros Hc. rewrite (run_options h rt w req Hc).
  repeat split; try reflexivity; destruct h; reflexivity.
Qed.

(** The theorem at a preflight to SimpleProxyHandler. *)
Lemma C9_preflight_witness :
  command preflight_request = OPTIONS
  /\ run SimpleProxyHandler sample_runtime (unreachable (Exception "unused")) preflight_request
     = [WfileHead (relay_head sample_runtime SimpleProxyHandler 200 [])].
Proof.
  split; [reflexivity|].
  apply (C9_preflight SimpleProxyHandler sample_runtime
           (unreachable (Exception "unused")) preflight_request).
  reflexivity.
Defined.

(** C9 as stated fails: the answer of CORSProxyHandler to a preflight that
    asks for [x-dashscope-sse] has status 200 and no body, and its
    [Access-Control-Allow-Headers] field does not have the value of the
    table of section 6. *)
Lemma C9_counterexample :
  command preflight_api_request = OPTIONS
  /\ map status_codes
       (heads (run CORSProxyHandler sample_runtime (unreachable (Exception "unused"))
                 preflight_api_request)) = [[200]]
  /\ body_writes
       (run CORSProxyHandler sample_runtime (unreachable (Exception "unused"))
          preflight_api_request) = []
  /\ map (fun lines =>
            has_field lines
              ("Access-Control-Allow-Headers",
               "Content-Type, Authorization, X-DashScope-SSE"))
       (heads (run CORSProxyHandler sample_runtime (unreachable (Exception "unused"))
                 preflight_api_request)) = [false]
  /\ map fields
       (heads (run CORSProxyHandler sample_runtime (unreachable (Exception "unused"))
                 preflight_api_request))
     = [ [ ("Server", "BaseHTTP/0.6 Python/3.11.2");
           ("Date", "Wed, 04 Nov 2026 09:00:00 GMT");
           ("Access-Control-Allow-Origin", "*");
           ("Access-Control-Allow-Methods", "GET, POST, PUT, DELETE, OPTIONS");
           ("Access-Control-Allow-Headers", "Content-Type, Authorization");
           ("Access-Control-Max-Age", "86400") ] ].
Proof. vm_compute. repeat split. Qed.

(** C4, as amended.  A POST request whose path does not start with
    [/api/dashscope/] is answered by [send_error]: one header block with
    status 404, then the HTML error page of the library, which is not empty;
    the body of the request is not read and no client call is made. *)
Theorem C4_rejected_post h rt w req :
  command req = POST -> accepted (path req) = false ->
  run h rt w req =
    [WfileHead (not_found_head rt); WfileWrite (error_page rt 404 "Not Found")]
  /\ map status_codes (heads (run h rt w req)) = [[404]]
  /\ response_body (run h rt w req) = error_page rt 404 "Not Found"
  /\ error_page rt 404 "Not Found" <> ""
  /\ no_forwarding (run h rt w req) = true.
Proof.
  intros Hc Ha. rewrite (run_rejected h rt w req Hc Ha).
  repeat split.
  - unfold response_body. simpl. unfold String.append.
    generalize (error_page rt 404 "Not Found") as p.
    induction p as [|c p IH]; [reflexivity|]. simpl. now f_equal.
  - intros E. pose proof (error_page_nonempty rt 404 "Not Found") as N.
    rewrite E in N. discriminate.
Qed.

(** The theorem at POST /foo to CORSProxyHandler. *)
Lemma C4_rejected_post_witness :
  command stray_request = POST /\ accepted (path stray_request) = false
  /\ no_forwarding
       (run CORSProxyHandler sample_runtime (unreachable (Exception "unused"))
          stray_request) = true.
Proof.
  split; [reflexivity|]. split; [reflexivity|].
  apply (C4_rejected_post CORSProxyHandler sample_runtime
           (unreachable (Exception "unused")) stray_request); reflexivity.
Defined.

(** C4 as stated fails: the answer to POST /foo has a body, the error page
    of 330 bytes. *)
Lemma C4_counterexample :
  command stray_request = POST
  /\ accepted (path stray_request) = false
  /\ response_body
       (run SimpleProxyHandler sample_runtime (unreachable (Exception "unused"))
          stray_request) <> ""
  /\ String.length
       (response_body
          (run SimpleProxyHandler sample_runtime (unreachable (Exception "unused"))
             stray_request)) = 330%nat.
Proof.
  split; [reflexivity|]. split; [reflexivity|]. split.
  - vm_compute. discriminate.
  - vm_compute. reflexivity.
Qed.

(** C10.  A POST request whose path is [/api/dashscope] followed by anything
    that does not begin with a slash (nothing at all included) is answered
    404 and nothing is forwarded; the paths that pass the test are those
    that begin with [/api/dashscope/]. *)
Theorem C10_prefix_needs_its_slash h rt w req suffix :
  command req = POST ->
  path req = "/api/dashscope" +:+ suffix ->
  Str.startswith suffix "/" = false ->
  map status_codes (heads (run h rt w req)) = [[404]]
  /\ no_forwarding (run h rt w req) = true
  /\ (forall p, accepted p = true <-> exists rest, p = "/api/dashscope/" +:+ rest).
Proof.
  intros Hc Hp Hs.
  assert (Ha : accepted (path req) = false).
  { rewrite Hp, accepted_suffix. exact Hs. }
  rewrite (run_rejected h rt w req Hc Ha).
  repeat split; try reflexivity; apply startswith_spec.
Qed.

(** The theorem at POST /api/dashscope to SimpleProxyHandler. *)
Lemma C10_prefix_needs_its_slash_witness :
  command bare_prefix_request = POST
  /\ path bare_prefix_request = "/api/dashscope" +:+ ""
  /\ Str.startswith "" "/" = false
  /\ no_forwarding
       (run SimpleProxyHandler sample_runtime (unreachable (Exception "unused"))
          bare_prefix_request) = true.
Proof.
  split; [reflexivity|]. split; [reflexivity|]. split; [reflexivity|].
  apply (C10_prefix_needs_its_slash SimpleProxyHandler sample_runtime
           (unreachable (Exception "unused")) bare_prefix_request ""); reflexivity.
Defined.

(** ** The body of the relayed response *)

Lemma append_empty_r (s : string) : s +:+ "" = s.
Proof.
  induction s as [|c s IH]; [reflexivity|].
  change (String c (s +:+ "") = String c s). now rewrite IH.
Qed.

Lemma body_writes_app a b : body_writes (a ++ b) = body_writes a ++ body_writes b.
Proof.
  induction a as [|e a IH]; [reflexivity|].
  destruct e; simpl; rewrite IH; reflexivity.
Qed.

Lemma body_writes_read_events req n : body_writes (read_events req n) = [].
Proof. unfold read_events. destruct (n >? 0); reflexivity. Qed.

Lemma body_writes_chunks chunks :
  body_writes (flat_map chunk_events chunks) =
  List.filter (fun c => negb (String.eqb c "")) chunks.
Proof.
  induction chunks as [|c r IH]; [reflexivity|].
  simpl. destruct (String.eqb c ""); simpl; now rewrite IH.
Qed.

Lemma chunks_read_chunks chunks :
  chunks_read (flat_map chunk_events chunks) = chunks.
Proof.
  induction chunks as [|c r IH]; [reflexivity|].
  simpl. destruct (String.eqb c ""); simpl; now rewrite IH.
Qed.

Lemma join_nonempty chunks :
  Str.join (List.filter (fun c => negb (String.eqb c "")) chunks) = Str.join chunks.
Proof.
  induction chunks as [|c r IH]; [reflexivity|].
  simpl. destruct (String.eqb c "") eqn:E; simpl.
  - apply String.eqb_eq in E. subst c. exact IH.
  - now rewrite IH.
Qed.

(** C2.  For a POST request SimpleProxyHandler relays (the path passes the
    test, the declared length is a number, the read of the body does not
    raise and the client returns a response): when a field named
    X-DashScope-SSE (in any case) has the value [enable], the client is
    called with [stream=True] and, after the header block, the handler takes
    the chunks of the upstream iterator one at a time, in order, writing and
    flushing each chunk that is not empty before it takes the next one, so
    the writes are the chunks that are not empty and their concatenation is
    the concatenation of the chunks; otherwise the client is called with
    [stream=False] and the body is one write of the upstream content. *)
Theorem C2_streaming_or_single_write rt w req n r :
  command req = POST -> accepted (path req) = true ->
  declared_length rt req = inl n -> read_failure rt n = None ->
  requests_post w (simple_call req n) = inl r ->
  let before :=
    read_events req n ++
    [ RequestsPost (simple_call req n);
      WfileHead (relay_head rt SimpleProxyHandler (status_code r)
                   (relayed SimpleProxyHandler (resp_headers r))) ] in
  let chunks := fst (iter_content r 1024) in
  let tr := run SimpleProxyHandler rt w req in
  rq_stream (simple_call req n) = sse_enabled (headers req)
  /\ body_writes before = []
  /\ (sse_enabled (headers req) = true ->
      tr = before ++ flat_map chunk_events chunks
      /\ chunks_read tr = chunks
      /\ body_writes tr = List.filter (fun c => negb (String.eqb c "")) chunks
      /\ response_body tr = Str.join chunks)
  /\ (sse_enabled (headers req) = false ->
      tr = before ++ [WfileWrite (content r)]
      /\ chunks_read tr = []
      /\ body_writes tr = [content r]
      /\ response_body tr = content r).
Proof.
  intros Hc Ha Hn Hr Hw before chunks tr.
  assert (Hb : body_writes before = []).
  { unfold before. now rewrite body_writes_app, body_writes_read_events. }
  assert (Hk : chunks_read before = []).
  { unfold before, read_events. destruct (n >? 0); reflexivity. }
  assert (Htr : tr = before ++
                     (if sse_enabled (headers req)
                      then flat_map chunk_events chunks
                      else [WfileWrite (content r)])).
  { unfold tr, before. rewrite (run_simple_accepted rt w req n Hc Ha Hn Hr), Hw.
    now rewrite <- app_assoc. }
  split; [apply prepare_headers_sse|]. split; [exact Hb|]. split; intros Hs.
  - rewrite Hs in Htr. split; [exact Htr|].
    assert (Hcr : chunks_read tr = chunks).
    { rewrite Htr. clear Htr.
      assert (G : forall a b, chunks_read (a ++ b) = chunks_read a ++ chunks_read b).
      { induction a as [|e a IH]; intros b; [reflexivity|].
        destruct e; simpl; rewrite IH; reflexivity. }
      now rewrite G, Hk, chunks_read_chunks. }
    assert (Hbw : body_writes tr = List.filter (fun c => negb (String.eqb c "")) chunks).
    { now rewrite Htr, body_writes_app, Hb, body_writes_chunks. }
    repeat split; [exact Hcr|exact Hbw|].
    unfold response_body. rewrite Hbw. apply join_nonempty.
  - rewrite Hs in Htr. split; [exact Htr|].
    assert (Hbw : body_writes tr = [content r]).
    { now rewrite Htr, body_writes_app, Hb. }
    repeat split; [|exact Hbw|].
    + rewrite Htr.
      assert (G : forall a b, chunks_read (a ++ b) = chunks_read a ++ chunks_read b).
      { induction a as [|e a IH]; intros b; [reflexivity|].
        destruct e; simpl; rewrite IH; reflexivity. }
      now rewrite G, Hk.
    + unfold response_body. rewrite Hbw. apply append_empty_r.
Qed.

(** The theorem at a request with [x-dashscope-sse: enable]. *)
Lemma C2_streaming_or_single_write_witness :
  command streaming_request = POST
  /\ accepted (path streaming_request) = true
  /\ declared_length sample_runtime streaming_request = inl 2
  /\ read_failure sample_runtime 2 = None
  /\ requests_post (answering sample_response sample_url_response)
       (simple_call streaming_request 2) = inl sample_response
  /\ rq_stream (simple_call streaming_request 2) = sse_enabled (headers streaming_request).
Proof.
  split; [reflexivity|].
  split; [reflexivity|]. split; [reflexivity|]. split; [reflexivity|]. split; [reflexivity|].
  apply (C2_streaming_or_single_write sample_runtime
           (answering sample_response sample_url_response) streaming_request 2
           sample_response); reflexivity.
Defined.

(** ** The target URL *)

Lemma target_url_same p : SimpleProxy.target_url p = CORSProxy.target_url p.
Proof. reflexivity. Qed.

(** The example of the specification. *)
Lemma target_url_example :
  SimpleProxy.target_url "/api/dashscope/v1/foo?x=1"
  = "https://dashscope.aliyuncs.com/v1/foo?x=1".
Proof. reflexivity. Qed.

Lemma replace_scan_absent old new s :
  occurs old s = false -> Str.replace_scan old new 0 s = s.
Proof.
  induction s as [|c s IH]; intros H; [reflexivity|].
  cbn [occurs] in H. apply orb_false_iff in H. destruct H as [H1 H2].
  cbn [Str.replace_scan]. rewrite H1. now rewrite IH.
Qed.

(** Where the prefix occurs once, the rewrite is the one of the
    specification. *)
Lemma target_url_single_prefix rest :
  occurs "/api/dashscope" rest = false ->
  SimpleProxy.target_url ("/api/dashscope" +:+ rest) =
  spec_target_url ("/api/dashscope" +:+ rest).
Proof.
  intros H. unfold SimpleProxy.target_url, spec_target_url, Str.replace.
  f_equal.
  transitivity (Str.replace_scan "/api/dashscope" "" 0 rest);
    [destruct rest; reflexivity|].
  now apply replace_scan_absent.
Qed.

(** C3 fails on the code.  For the path
    [/api/dashscope/v1/foo?next=/api/dashscope/bar] both handlers call
    upstream at [https://dashscope.aliyuncs.com/v1/foo?next=/bar]: [replace]
    removed the second occurrence of the prefix too, from inside the query
    string, where the specification keeps the remainder as it is. *)
Theorem C3_replace_removes_every_occurrence :
  accepted (path nested_prefix_request) = true
  /\ map rq_url
       (requests_calls
          (run SimpleProxyHandler sample_runtime
             (answering sample_response sample_url_response) nested_prefix_request))
     = ["https://dashscope.aliyuncs.com/v1/foo?next=/bar"]
  /\ map (fun c => full_url (uo_req c))
       (urlopen_calls
          (run CORSProxyHandler sample_runtime
             (answering sample_response sample_url_response) nested_prefix_request))
     = ["https://dashscope.aliyuncs.com/v1/foo?next=/bar"]
  /\ spec_target_url (path nested_prefix_request)
     = "https://dashscope.aliyuncs.com/v1/foo?next=/api/dashscope/bar".
Proof. vm_compute. repeat split. Qed.

(** ** Upstream failures and the headers of the relayed response *)

Lemma error_json_opening msg :
  Str.startswith (error_json "Request failed" msg) request_failed_opening = true.
Proof. reflexivity. Qed.

(** C7, as amended.  When the handler gets to its client call (the declared
    length is a number and the read of the body does not raise) and the
    call fails to reach the upstream, SimpleProxyHandler ([requests] raises a [RequestException]) answers 500
    with its CORS fields, [Content-Type: application/json] and the body
    [error_json] builds from [Request failed] and the text of the exception:
    an opening brace, the quoted key error, a colon, and between quotes
    [Request failed: ] and the text, then a closing brace.  CORSProxyHandler
    ([urlopen] raises an exception that is not an [HTTPError]) answers 500
    likewise, with [Proxy error: ] in place of [Request failed: ]. *)
Theorem C7_upstream_failure rt w req n msg :
  command req = POST -> accepted (path req) = true ->
  declared_length rt req = inl n -> read_failure rt n = None ->
  (requests_post w (simple_call req n) = inr (RequestException msg) ->
   run SimpleProxyHandler rt w req =
     read_events req n ++
     [ RequestsPost (simple_call req n);
       WfileHead (error_head rt SimpleProxyHandler);
       WfileWrite (error_json "Request failed" msg) ]
   /\ map status_codes (heads (run SimpleProxyHandler rt w req)) = [[500]]
   /\ response_body (run SimpleProxyHandler rt w req) = error_json "Request failed" msg
   /\ Str.startswith (response_body (run SimpleProxyHandler rt w req))
        request_failed_opening = true)
  /\ (urlopen w (urllib_call req n) = inr (Exception msg) ->
      run CORSProxyHandler rt w req =
        read_events req n ++
        [ Urlopen (urllib_call req n);
          WfileHead (error_head rt CORSProxyHandler);
          WfileWrite (error_json "Proxy error" msg) ]
      /\ map status_codes (heads (run CORSProxyHandler rt w req)) = [[500]]
      /\ response_body (run CORSProxyHandler rt w req) = error_json "Proxy error" msg).
Proof.
  intros Hc Ha Hn Hr. split; intros Hw.
  - rewrite (run_simple_accepted rt w req n Hc Ha Hn Hr), Hw.
    assert (Hb : response_body
                   (read_events req n ++ RequestsPost (simple_call req n) ::
                    simple_except rt (RequestException msg))
                 = error_json "Request failed" msg).
    { unfold response_body.
      rewrite body_writes_app, body_writes_read_events.
      apply append_empty_r. }
    split; [reflexivity|]. split.
    + now rewrite heads_app, heads_read_events.
    + rewrite Hb. split; [reflexivity|apply error_json_opening].
  - rewrite (run_cors_accepted rt w req n Hc Ha Hn Hr), Hw.
    split; [reflexivity|]. split.
    + now rewrite heads_app, heads_read_events.
    + unfold response_body.
      rewrite body_writes_app, body_writes_read_events.
      apply append_empty_r.
Qed.

(** The theorem at an upstream that refuses the connection. *)
Lemma C7_upstream_failure_witness :
  command buffered_request = POST
  /\ accepted (path buffered_request) = true
  /\ declared_length sample_runtime buffered_request = inl 2
  /\ read_failure sample_runtime 2 = None
  /\ response_body
       (run SimpleProxyHandler sample_runtime
          (unreachable (RequestException "Connection refused")) buffered_request)
     = error_json "Request failed" "Connection refused".
Proof.
  split; [reflexivity|].
  split; [reflexivity|]. split; [reflexivity|]. split; [reflexivity|].
  apply (C7_upstream_failure sample_runtime
           (unreachable (RequestException "Connection refused")) buffered_request 2
           "Connection refused"); reflexivity.
Defined.

(** C7 as stated fails: when [urlopen] cannot connect, the value of the key
    error in the body CORSProxyHandler sends starts with [Proxy error:], not
    with [Request failed:]. *)
Lemma C7_counterexample :
  map status_codes
    (heads (run CORSProxyHandler sample_runtime
              (unreachable (Exception "<urlopen error [Errno 111] Connection refused>"))
              buffered_request)) = [[500]]
  /\ response_body
       (run CORSProxyHandler sample_runtime
          (unreachable (Exception "<urlopen error [Errno 111] Connection refused>"))
          buffered_request)
     = error_json "Proxy error" "<urlopen error [Errno 111] Connection refused>"
  /\ Str.startswith
       (response_body
          (run CORSProxyHandler sample_runtime
             (unreachable (Exception "<urlopen error [Errno 111] Connection refused>"))
             buffered_request))
       request_failed_opening = false.
Proof. vm_compute. repeat split. Qed.

Lemma in_relayed_simple kv items :
  In kv (relayed SimpleProxyHandler items) <->
  In kv items
  /\ Str.mem (Str.lower (fst kv))
       ["access-control-allow-origin"; "content-encoding"; "transfer-encoding"] = false.
Proof.
  unfold relayed. rewrite filter_In. now rewrite negb_true_iff.
Qed.

Lemma in_relayed_cors kv items :
  In kv (relayed CORSProxyHandler items) <->
  In kv items /\ Str.lower (fst kv) <> "access-control-allow-origin".
Proof.
  unfold relayed. rewrite filter_In, negb_true_iff. unfold Str.mem. simpl.
  rewrite orb_false_r. now rewrite String.eqb_neq.
Qed.

(** C6, as amended.  For a POST request that gets to the client call (the
    declared length is a number and the read of the body does not raise):
    SimpleProxyHandler copies to the relayed response, in order, the upstream fields whose lower-cased name is none of
    access-control-allow-origin, content-encoding, transfer-encoding, and no
    other.  CORSProxyHandler, for a response [urlopen] returns, copies every
    upstream field whose lower-cased name is not access-control-allow-origin,
    content-encoding and transfer-encoding included; for an upstream answer
    [urlopen] raises as [HTTPError] it copies no upstream field. *)
Theorem C6_relayed_headers rt w req n :
  command req = POST -> accepted (path req) = true ->
  declared_length rt req = inl n -> read_failure rt n = None ->
  (forall r, requests_post w (simple_call req n) = inl r ->
     heads (run SimpleProxyHandler rt w req) =
       [ response_lines rt (status_code r) (reason_phrase rt (status_code r))
         ++ as_lines (cors_headers SimpleProxyHandler)
         ++ as_lines (relayed SimpleProxyHandler (resp_headers r)) ]
     /\ forall kv, In kv (relayed SimpleProxyHandler (resp_headers r)) <->
          In kv (resp_headers r)
          /\ Str.mem (Str.lower (fst kv))
               ["access-control-allow-origin"; "content-encoding"; "transfer-encoding"]
             = false)
  /\ (forall u, urlopen w (urllib_call req n) = inl u ->
        (exists later,
           heads (run CORSProxyHandler rt w req) =
             (response_lines rt (getcode u) (reason_phrase rt (getcode u))
              ++ as_lines (cors_headers CORSProxyHandler)
              ++ as_lines (relayed CORSProxyHandler (url_headers u))) :: later)
        /\ forall kv, In kv (relayed CORSProxyHandler (url_headers u)) <->
             In kv (url_headers u)
             /\ Str.lower (fst kv) <> "access-control-allow-origin")
  /\ (forall code reason body,
        urlopen w (urllib_call req n) = inr (HTTPError code reason body) ->
        heads (run CORSProxyHandler rt w req) =
          [ response_lines rt code (reason_phrase rt code)
            ++ as_lines (cors_headers CORSProxyHandler) ]).
Proof.
  intros Hc Ha Hn Hr. split; [|split].
  - intros r Hw. split; [|intros kv; apply in_relayed_simple].
    rewrite (run_simple_accepted rt w req n Hc Ha Hn Hr), Hw.
    rewrite heads_app, heads_read_events. cbn [heads app]. f_equal.
    destruct (sse_enabled (headers req)); [apply heads_chunks|reflexivity].
  - intros u Hw. split; [|intros kv; apply in_relayed_cors].
    rewrite (run_cors_accepted rt w req n Hc Ha Hn Hr), Hw.
    rewrite heads_app, heads_read_events. cbn [heads app]. eexists. reflexivity.
  - intros code reason body Hw.
    rewrite (run_cors_accepted rt w req n Hc Ha Hn Hr), Hw.
    rewrite heads_app, heads_read_events. cbn [heads app cors_except].
    unfold relay_head. cbn [as_lines map]. now rewrite app_nil_r.
Qed.

(** The theorem at an upstream response with [Content-Encoding] and
    [Transfer-Encoding] fields, relayed by SimpleProxyHandler. *)
Lemma C6_relayed_headers_witness :
  command buffered_request = POST
  /\ accepted (path buffered_request) = true
  /\ declared_length sample_runtime buffered_request = inl 2
  /\ read_failure sample_runtime 2 = None
  /\ heads (run SimpleProxyHandler sample_runtime
              (answering sample_response sample_url_response) buffered_request) =
     [ response_lines sample_runtime 200 "OK"
       ++ as_lines cors_table
       ++ [Header "Content-Type" "text/event-stream"] ].
Proof.
  split; [reflexivity|].
  split; [reflexivity|]. split; [reflexivity|]. split; [reflexivity|].
  exact (proj1 (proj1 (C6_relayed_headers sample_runtime
                         (answering sample_response sample_url_response)
                         buffered_request 2 eq_refl eq_refl eq_refl eq_refl)
                  sample_response eq_refl)).
Defined.

(** C6 as stated fails: CORSProxyHandler copies the upstream
    [Content-Encoding] field to the relayed response. *)
Lemma C6_counterexample :
  In ("Content-Encoding", "gzip") (url_headers sample_url_response)
  /\ map (fun lines => has_field lines ("Content-Encoding", "gzip"))
       (heads (run CORSProxyHandler sample_runtime
                 (answering sample_response sample_url_response) buffered_request))
     = [true].
Proof. split; [right; left; reflexivity|vm_compute; reflexivity]. Qed.

(** ** The headers of the outbound request *)

Lemma lower_char_idem c : Str.lower_char (Str.lower_char c) = Str.lower_char c.
Proof. destruct c as [[] [] [] [] [] [] [] []]; reflexivity. Qed.

Lemma lower_upper_char c : Str.lower_char (Str.upper_char c) = Str.lower_char c.
Proof. destruct c as [[] [] [] [] [] [] [] []]; reflexivity. Qed.

Lemma lower_idem s : Str.lower (Str.lower s) = Str.lower s.
Proof.
  induction s as [|c s IH]; [reflexivity|].
  simpl. now rewrite lower_char_idem, IH.
Qed.

Lemma lower_capitalize s : Str.lower (Str.capitalize s) = Str.lower s.
Proof.
  destruct s as [|c s]; [reflexivity|].
  simpl. now rewrite lower_upper_char, lower_idem.
Qed.

Lemma denied_capitalize h : denied (Str.capitalize h) = denied h.
Proof. unfold denied. now rewrite lower_capitalize. Qed.

Lemma last_value_app key a b k :
  last_value key (a ++ b) k =
  match last_value key b k with
  | Some x => Some x
  | None => last_value key a k
  end.
Proof.
  induction a as [|[h v] a IH]; simpl.
  - now destruct (last_value key b k).
  - rewrite IH. now destruct (last_value key b k).
Qed.

Lemma last_value_absent key l k :
  (forall kv, In kv l -> key (fst kv) <> k) -> last_value key l k = None.
Proof.
  induction l as [|[h v] l IH]; intros H; [reflexivity|].
  simpl. rewrite IH by (intros kv Hin; apply H; now right).
  destruct (String.eqb (key h) k) eqn:E; [|reflexivity].
  apply String.eqb_eq in E. exfalso. apply (H (h, v)); [now left|exact E].
Qed.

Lemma last_value_in key l k v :
  last_value key l k = Some v -> exists h, In (h, v) l /\ key h = k.
Proof.
  induction l as [|[h x] l IH]; [discriminate|].
  simpl. destruct (last_value key l k) as [y|].
  - intros E. destruct (IH E) as (h' & Hin & Hk). exists h'. split; [now right|exact Hk].
  - destruct (String.eqb (key h) k) eqn:E; [|discriminate].
    intros [= ->]. apply String.eqb_eq in E. exists h. split; [now left|exact E].
Qed.

(** The dict [requests.post] receives holds, under each name, the value of
    the last inbound field of that name that passes the denylist. *)
Lemma prepare_headers_lookup items k :
  fst (SimpleProxy.prepare_headers items) !! k = last_value id (allowed items) k.
Proof.
  unfold SimpleProxy.prepare_headers.
  assert (G : forall l (d : gmap string string) b,
             fst (fold_left SimpleProxy.header_step l (d, b)) !! k =
             match last_value id (allowed l) k with
             | Some v => Some v
             | None => d !! k
             end).
  { induction l as [|[h v] l IH]; intros d b; [reflexivity|].
    cbn [fold_left SimpleProxy.header_step allowed List.filter]. cbn [fst].
    fold (denied h). fold (allowed l).
    destruct (denied h); cbn [negb]; rewrite IH; [reflexivity|].
    cbn [last_value]. destruct (last_value id (allowed l) k); [reflexivity|].
    unfold id. destruct (String.eqb h k) eqn:E.
    - apply String.eqb_eq in E. subst. now rewrite lookup_insert_eq.
    - apply String.eqb_neq in E. now rewrite lookup_insert_ne. }
  rewrite G. now destruct (last_value id (allowed items) k).
Qed.

(** The headers of the [Request] given to [urlopen] hold, under each
    capitalised name, the value of the last inbound field of that
    capitalised name that passes the denylist. *)
Lemma urllib_headers_lookup items r k :
  req_headers r = ∅ ->
  req_headers (fold_left CORSProxy.header_step items r) !! k =
  last_value Str.capitalize (allowed items) k.
Proof.
  assert (G : forall l r,
             req_headers (fold_left CORSProxy.header_step l r) !! k =
             match last_value Str.capitalize (allowed l) k with
             | Some v => Some v
             | None => req_headers r !! k
             end).
  { induction l as [|[h v] l IH]; intros r'; [reflexivity|].
    cbn [fold_left CORSProxy.header_step allowed List.filter]. cbn [fst].
    fold (denied h). fold (allowed l).
    destruct (denied h); cbn [negb]; rewrite IH; [reflexivity|].
    cbn [last_value]. destruct (last_value Str.capitalize (allowed l) k); [reflexivity|].
    unfold add_header. cbn [req_headers].
    destruct (String.eqb (Str.capitalize h) k) eqn:E.
    - apply String.eqb_eq in E. subst. now rewrite lookup_insert_eq.
    - apply String.eqb_neq in E. now rewrite lookup_insert_ne. }
  intros Hr. rewrite G, Hr, lookup_empty.
  now destruct (last_value Str.capitalize (allowed items) k).
Qed.

Lemma in_allowed kv items :
  In kv (allowed items) <-> In kv items /\ denied (fst kv) = false.
Proof. unfold allowed. now rewrite filter_In, negb_true_iff. Qed.

Lemma forwards_of_last_value key items (out : gmap string string) :
  (forall h, denied (key h) = denied h) ->
  (forall k, out !! k = last_value key (allowed items) k) ->
  forwards key items out.
Proof.
  intros Hkey Hout. split; [|split].
  - intros k Hd. rewrite Hout.
    destruct (last_value key (allowed items) k) as [v|] eqn:E; [|reflexivity].
    apply last_value_in in E. destruct E as (h & Hin & Hk).
    apply in_allowed in Hin. destruct Hin as [_ Hh]. simpl in Hh.
    rewrite <- Hk, Hkey, Hh in Hd. discriminate.
  - intros pre h v post Hitems Hd Hlater. rewrite Hout, Hitems.
    unfold allowed. rewrite List.filter_app. cbn [List.filter fst]. fold (allowed post).
    fold (denied h). rewrite Hd. cbn [negb].
    rewrite last_value_app. cbn [last_value].
    rewrite (last_value_absent key (allowed post) (key h) Hlater).
    now rewrite String.eqb_refl.
  - intros k v Hk. rewrite Hout in Hk. apply last_value_in in Hk.
    destruct Hk as (h & Hin & Hkh). apply in_allowed in Hin.
    destruct Hin as [Hin Hh]. exists h. repeat split; assumption.
Qed.

Lemma forwards_simple req n :
  forwards id (headers req) (rq_headers (simple_call req n)).
Proof.
  apply forwards_of_last_value; [reflexivity|].
  intros k. apply prepare_headers_lookup.
Qed.

Lemma forwards_urllib req n :
  forwards Str.capitalize (headers req) (req_headers (uo_req (urllib_call req n))).
Proof.
  apply forwards_of_last_value; [apply denied_capitalize|].
  intros k. unfold urllib_call. cbn [uo_req]. now apply urllib_headers_lookup.
Qed.

Lemma requests_calls_app a b :
  requests_calls (a ++ b) = requests_calls a ++ requests_calls b.
Proof.
  induction a as [|e a IH]; [reflexivity|].
  destruct e; simpl; rewrite IH; reflexivity.
Qed.

Lemma urlopen_calls_app a b :
  urlopen_calls (a ++ b) = urlopen_calls a ++ urlopen_calls b.
Proof.
  induction a as [|e a IH]; [reflexivity|].
  destruct e; simpl; rewrite IH; reflexivity.
Qed.

Lemma requests_calls_chunks chunks : requests_calls (flat_map chunk_events chunks) = [].
Proof.
  induction chunks as [|c r IH]; [reflexivity|].
  simpl. destruct (String.eqb c ""); simpl; exact IH.
Qed.

(** A run that passes the path test and reads the declared length makes
    one client call. *)
Lemma one_requests_call rt w req n :
  command req = POST -> accepted (path req) = true ->
  declared_length rt req = inl n -> read_failure rt n = None ->
  requests_calls (run SimpleProxyHandler rt w req) = [simple_call req n].
Proof.
  intros Hc Ha Hn Hr. rewrite (run_simple_accepted rt w req n Hc Ha Hn Hr).
  rewrite requests_calls_app. unfold read_events at 1.
  destruct (n >? 0); cbn [requests_calls app]; f_equal;
    (destruct (requests_post w (simple_call req n)) as [r|e]; [|reflexivity];
     cbn [requests_calls];
     destruct (sse_enabled (headers req)); [apply requests_calls_chunks|reflexivity]).
Qed.

Lemma one_urlopen_call rt w req n :
  command req = POST -> accepted (path req) = true ->
  declared_length rt req = inl n -> read_failure rt n = None ->
  urlopen_calls (run CORSProxyHandler rt w req) = [urllib_call req n].
Proof.
  intros Hc Ha Hn Hr. rewrite (run_cors_accepted rt w req n Hc Ha Hn Hr).
  rewrite urlopen_calls_app. unfold read_events at 1.
  destruct (n >? 0); cbn [urlopen_calls app]; f_equal;
    (destruct (urlopen w (urllib_call req n)) as [u|e];
     [cbn [urlopen_calls]; destruct (read u) as [b|e]; [reflexivity|]|];
     destruct e as [m|code reason [body|]|m]; reflexivity).
Qed.

(** C5, as amended.  For a POST request that passes the path test and whose
    declared length is a number the read of the body does not raise on, each
    handler makes one client call, and
    the header dict of that call (keyed by the field name for
    SimpleProxyHandler, by the capitalised field name for CORSProxyHandler)
    has no key whose lower-cased name is host, origin, referer or
    content-length; has, for every inbound field outside the denylist whose
    key no later such field repeats, that field's value unchanged; and has
    nothing else than values of inbound fields outside the denylist. *)
Theorem C5_outbound_headers rt w req n :
  command req = POST -> accepted (path req) = true ->
  declared_length rt req = inl n -> read_failure rt n = None ->
  (requests_calls (run SimpleProxyHandler rt w req) = [simple_call req n]
   /\ forwards id (headers req) (rq_headers (simple_call req n)))
  /\ (urlopen_calls (run CORSProxyHandler rt w req) = [urllib_call req n]
      /\ forwards Str.capitalize (headers req) (req_headers (uo_req (urllib_call req n)))).
Proof.
  intros Hc Ha Hn Hr. split; split.
  - now apply (one_requests_call rt w req n).
  - apply forwards_simple.
  - now apply (one_urlopen_call rt w req n).
  - apply forwards_urllib.
Qed.

(** The theorem at a request with [Host], [Content-Length], [Authorization]
    and [x-dashscope-sse] fields. *)
Lemma C5_outbound_headers_witness :
  command streaming_request = POST
  /\ accepted (path streaming_request) = true
  /\ declared_length sample_runtime streaming_request = inl 2
  /\ read_failure sample_runtime 2 = None
  /\ requests_calls
       (run SimpleProxyHandler sample_runtime
          (answering sample_response sample_url_response) streaming_request)
     = [simple_call streaming_request 2].
Proof.
  split; [reflexivity|].
  split; [reflexivity|]. split; [reflexivity|]. split; [reflexivity|].
  apply (C5_outbound_headers sample_runtime
           (answering sample_response sample_url_response) streaming_request 2);
    reflexivity.
Defined.

(** C5 as stated fails: of two inbound [Accept] fields, neither on the
    denylist, the outbound request of SimpleProxyHandler has only the value
    of the second. *)
Lemma C5_counterexample :
  In ("Accept", "text/plain") (headers repeated_header_request)
  /\ denied "Accept" = false
  /\ map (fun call => rq_headers call !! "Accept")
       (requests_calls
          (run SimpleProxyHandler sample_runtime
             (answering sample_response sample_url_response) repeated_header_request))
     = [Some "application/json"].
Proof.
  split; [right; left; reflexivity|]. split; [reflexivity|].
  vm_compute. reflexivity.
Qed.

(** ** The two classes side by side *)

(** C8, as amended.  The two handlers follow one design without being
    equivalent.  They answer an OPTIONS request with the same header block
    but for their CORS fields, which are not the same; they answer a POST
    request that fails the path test in the same way; they compute the same
    target URL; they answer a declared length that is not a number, and a
    declared length whose read raises, with the same 500 but for their CORS
    fields; and when the body is read they read the same bytes and then
    call their client once, with the same URL, the same body, certificate
    checks off, and the inbound fields forwarded under the same denylist
    (CORSProxyHandler under capitalised names). *)
Theorem C8_shared_design rt w req :
  (command req = OPTIONS ->
   forall h, run h rt w req = [WfileHead (relay_head rt h 200 [])])
  /\ cors_headers SimpleProxyHandler <> cors_headers CORSProxyHandler
  /\ (command req = POST -> accepted (path req) = false ->
      run SimpleProxyHandler rt w req = run CORSProxyHandler rt w req)
  /\ (forall p, SimpleProxy.target_url p = CORSProxy.target_url p)
  /\ (command req = POST -> accepted (path req) = true ->
      forall msg, declared_length rt req = inr msg ->
      forall h, run h rt w req =
        [WfileHead (error_head rt h); WfileWrite (error_json "Proxy error" msg)])
  /\ (command req = POST -> accepted (path req) = true ->
      forall n msg, declared_length rt req = inl n -> read_failure rt n = Some msg ->
      forall h, run h rt w req =
        [WfileHead (error_head rt h); WfileWrite (error_json "Proxy error" msg)])
  /\ (command req = POST -> accepted (path req) = true ->
      forall n, declared_length rt req = inl n -> read_failure rt n = None ->
      exists c1 c2 rest1 rest2,
        run SimpleProxyHandler rt w req = read_events req n ++ RequestsPost c1 :: rest1
        /\ run CORSProxyHandler rt w req = read_events req n ++ Urlopen c2 :: rest2
        /\ requests_calls (run SimpleProxyHandler rt w req) = [c1]
        /\ urlopen_calls (run CORSProxyHandler rt w req) = [c2]
        /\ rq_url c1 = full_url (uo_req c2)
        /\ rq_data c1 = data (uo_req c2)
        /\ method (uo_req c2) = "POST"
        /\ rq_verify c1 = false
        /\ uo_context c2 = {| check_hostname := false; verify_mode := CERT_NONE |}
        /\ forwards id (headers req) (rq_headers c1)
        /\ forwards Str.capitalize (headers req) (req_headers (uo_req c2))).
Proof.
  split; [|split; [|split; [|split; [|split; [|split]]]]].
  - intros Hc h. now apply run_options.
  - discriminate.
  - intros Hc Ha. now rewrite !(run_rejected _ rt w req Hc Ha).
  - apply target_url_same.
  - intros Hc Ha msg Hn h. now apply run_int_error.
  - intros Hc Ha n msg Hn Hr h. now apply (run_read_error h rt w req n msg).
  - intros Hc Ha n Hn Hr.
    exists (simple_call req n), (urllib_call req n). eexists. eexists.
    split; [apply (run_simple_accepted rt w req n Hc Ha Hn Hr)|].
    split; [apply (run_cors_accepted rt w req n Hc Ha Hn Hr)|].
    split; [now apply one_requests_call|].
    split; [now apply one_urlopen_call|].
    assert (Hf : forall l r,
               full_url (fold_left CORSProxy.header_step l r) = full_url r
               /\ data (fold_left CORSProxy.header_step l r) = data r
               /\ method (fold_left CORSProxy.header_step l r) = method r).
    { induction l as [|[k v] l IH]; intros r; [now repeat split|].
      cbn [fold_left]. destruct (IH (CORSProxy.header_step r (k, v))) as (-> & -> & ->).
      unfold CORSProxy.header_step. now destruct (negb _). }
    unfold urllib_call at 1 2 3. cbn [uo_req].
    match goal with |- context [fold_left _ _ ?r0] =>
      destruct (Hf (headers req) r0) as (-> & -> & ->) end.
    do 5 (split; [reflexivity|]).
    split; [apply forwards_simple|apply forwards_urllib].
Qed.

(** C8 as stated fails: the two handlers answer the same preflight with
    different header blocks. *)
Lemma C8_counterexample :
  run SimpleProxyHandler sample_runtime (unreachable (Exception "unused")) preflight_request
  <> run CORSProxyHandler sample_runtime (unreachable (Exception "unused")) preflight_request.
Proof. vm_compute. discriminate. Qed.

(** ** How every run ends *)



Lemma final_int_error h rt w req msg :
  command req = POST -> accepted (path req) = true ->
  declared_length rt req = inr msg ->
  outcome h rt w req = inl tt
  /\ headers_buffer (final h rt w req) = []
  /\ rfile (final h rt w req) = body_stream req.
Proof.
  intros Hc Ha Hn. unfold outcome, final, dispatch. rewrite Hc.
  assert (Hl := length_step rt req (initial_state req)). rewrite Hn in Hl.
  unfold accepted in Ha.
  destruct h; unfold SimpleProxy.do_POST, CORSProxy.do_POST; rewrite Ha;
    cbv [negb]; unfold try_except;
    rewrite (bind_raise _ _ _ _ _ Hl);
    [rewrite error_answer_simple by reflexivity
    |rewrite error_answer_cors by reflexivity]; repeat split.
Qed.

Lemma final_read_error h rt w req n msg :
  command req = POST -> accepted (path req) = true ->
  declared_length rt req = inl n -> read_failure rt n = Some msg ->
  outcome h rt w req = inl tt
  /\ headers_buffer (final h rt w req) = []
  /\ rfile (final h rt w req) = body_stream req.
Proof.
  intros Hc Ha Hn Hr. unfold outcome, final, dispatch. rewrite Hc.
  assert (Hl := length_step rt req (initial_state req)). rewrite Hn in Hl.
  unfold accepted in Ha.
  destruct h; unfold SimpleProxy.do_POST, CORSProxy.do_POST; rewrite Ha;
    cbv [negb]; unfold try_except;
    rewrite (bind_ok _ _ _ _ _ Hl);
    rewrite (bind_raise _ _ _ _ _ (read_step_raises rt req n msg Hr));
    [rewrite error_answer_simple by reflexivity
    |rewrite error_answer_cors by reflexivity]; repeat split.
Qed.

Lemma final_simple_accepted rt w req n :
  command req = POST -> accepted (path req) = true ->
  declared_length rt req = inl n -> read_failure rt n = None ->
  outcome SimpleProxyHandler rt w req = inl tt
  /\ headers_buffer (final SimpleProxyHandler rt w req) = []
  /\ rfile (final SimpleProxyHandler rt w req) = remaining req n.
Proof.
  intros Hc Ha Hn Hr. unfold outcome, final, dispatch. rewrite Hc.
  unfold SimpleProxy.do_POST. unfold accepted in Ha. rewrite Ha.
  cbv [negb]. unfold try_except.
  assert (Hl := length_step rt req (initial_state req)). rewrite Hn in Hl.
  rewrite (bind_ok _ _ _ _ _ Hl).
  rewrite (bind_ok _ _ _ _ _ (read_step rt req n Hr)).
  destruct (SimpleProxy.prepare_headers (headers req)) as [hd st].
  set (call := {| rq_url := SimpleProxy.target_url (path req) |}).
  fold (remaining req n).
  set (s1 := {| headers_buffer := []; trace := read_events req n |}).
  destruct (requests_post w call) as [r|e] eqn:Ew.
  - assert (Hp : (emit (RequestsPost call) >>
                  match @inl Response Exn r with
                  | inl r => ret r
                  | inr e => raise e
                  end) s1 = (inl r, traced s1 [RequestsPost call])).
    { reflexivity. }
    rewrite (bind_ok _ _ _ _ _ Hp).
    rewrite relay_head_simple by reflexivity.
    destruct st.
    + destruct (iter_content r 1024) as [chunks failure].
      change (fun chunk : bytes => if negb (String.eqb chunk "")
                                   then wfile_write chunk >> wfile_flush else ret tt)
        with stream_body.
      unfold try_except. rewrite for_iter_stream.
      destruct failure; repeat split.
    + repeat split.
  - assert (Hp : (emit (RequestsPost call) >>
                  match @inr Response Exn e with
                  | inl r => ret r
                  | inr e => raise e
                  end) s1 = (inr e, traced s1 [RequestsPost call])).
    { reflexivity. }
    rewrite (bind_raise _ _ _ _ _ Hp).
    destruct e; rewrite error_answer_simple by reflexivity; repeat split.
Qed.

Lemma final_cors_accepted rt w req n :
  command req = POST -> accepted (path req) = true ->
  declared_length rt req = inl n -> read_failure rt n = None ->
  outcome CORSProxyHandler rt w req = inl tt
  /\ headers_buffer (final CORSProxyHandler rt w req) = []
  /\ rfile (final CORSProxyHandler rt w req) = remaining req n.
Proof.
  intros Hc Ha Hn Hr. unfold outcome, final, dispatch. rewrite Hc.
  unfold CORSProxy.do_POST. unfold accepted in Ha. rewrite Ha.
  cbv [negb]. unfold try_except.
  assert (Hl := length_step rt req (initial_state req)). rewrite Hn in Hl.
  rewrite (bind_ok _ _ _ _ _ Hl).
  rewrite (bind_ok _ _ _ _ _ (read_step rt req n Hr)).
  cbv [create_default_context check_hostname verify_mode].
  set (call := {| uo_req := _ |}).
  fold (remaining req n).
  set (s1 := {| headers_buffer := []; trace := read_events req n |}).
  assert (He : forall e s, headers_buffer s = [] ->
            let p := match e with
             | HTTPError code reason body =>
                 send_response rt code None >>
                 CORSProxy.send_cors_headers >>
                 end_headers >>
                 match body with
                 | Some error_body => wfile_write error_body
                 | None =>
                     wfile_write
                       ("{" +:+ dq +:+ "error" +:+ dq +:+ ": " +:+ dq +:+ "HTTP "
                        +:+ Str.of_Z code +:+ ": " +:+ reason +:+ dq +:+ "}")
                 end
             | _ =>
                 send_response rt 500 None >>
                 CORSProxy.send_cors_headers >>
                 send_header "Content-Type" "application/json" >>
                 end_headers >>
                 wfile_write (error_json "Proxy error" (str_e e))
             end s in
            fst p = inl tt /\ headers_buffer (snd p) = [] /\ rfile (snd p) = rfile s).
  { intros e s Hb. destruct s as [b rf tr]. simpl in Hb. subst b.
    destruct e as [m|code reason [body|]|m]; repeat split. }
  destruct (urlopen w call) as [u|e] eqn:Ew.
  - assert (Hp : (emit (Urlopen call) >>
                  match @inl UrlResponse Exn u with
                  | inl r => ret r
                  | inr e => raise e
                  end) s1 = (inl u, traced s1 [Urlopen call])).
    { reflexivity. }
    rewrite (bind_ok _ _ _ _ _ Hp).
    rewrite relay_head_cors by reflexivity.
    destruct (read u) as [b|e].
    + repeat split.
    + unfold bind, raise. apply (He e). reflexivity.
  - assert (Hp : (emit (Urlopen call) >>
                  match @inr UrlResponse Exn e with
                  | inl r => ret r
                  | inr e => raise e
                  end) s1 = (inr e, traced s1 [Urlopen call])).
    { reflexivity. }
    rewrite (bind_raise _ _ _ _ _ Hp).
    apply (He e). reflexivity.
Qed.

Lemma final_accepted h rt w req n :
  command req = POST -> accepted (path req) = true ->
  declared_length rt req = inl n -> read_failure rt n = None ->
  outcome h rt w req = inl tt
  /\ headers_buffer (final h rt w req) = []
  /\ rfile (final h rt w req) = remaining req n.
Proof.
  destruct h; [apply final_simple_accepted|apply final_cors_accepted].
Qed.

Lemma relay_head_shape rt h code kept :
  relay_head rt h code kept =
  StatusLine protocol_version code (reason_phrase rt code)
  :: as_lines (("Server", version_string rt) :: ("Date", date_time_string rt)
               :: cors_headers h ++ kept).
Proof.
  unfold relay_head, response_lines, as_lines. cbn [map app fst snd].
  now rewrite map_app.
Qed.


(** ** Reading the body and calling upstream *)

Lemma no_forwarding_chunks chunks : no_forwarding (flat_map chunk_events chunks) = true.
Proof.
  induction chunks as [|c r IH]; [reflexivity|].
  unfold no_forwarding in *. simpl. destruct (String.eqb c ""); simpl; exact IH.
Qed.

Lemma no_forwarding_cors_except rt e : no_forwarding (cors_except rt e) = true.
Proof. destruct e; reflexivity. Qed.

(** In every run the request body is read at most once, the client is
    called at most once, the read comes before the call, and nothing is
    written to the caller before the call: the trace is the reads, then the
    calls, then events that are neither. *)
Theorem read_then_call_then_answer h rt w req :
  exists reads calls after,
    run h rt w req = reads ++ calls ++ after
    /\ (length reads <= 1)%nat /\ forallb is_rfile_read reads = true
    /\ (length calls <= 1)%nat /\ forallb is_upstream_call calls = true
    /\ no_forwarding after = true.
Proof.
  assert (nothing : forall tr, run h rt w req = tr -> no_forwarding tr = true ->
            exists reads calls after,
              run h rt w req = reads ++ calls ++ after
              /\ (length reads <= 1)%nat /\ forallb is_rfile_read reads = true
              /\ (length calls <= 1)%nat /\ forallb is_upstream_call calls = true
              /\ no_forwarding after = true).
  { intros tr Htr Hno. exists [], [], tr. rewrite Htr. simpl. repeat split; auto. }
  destruct (command req) eqn:Hc.
  - apply (nothing _ (run_options h rt w req Hc)). reflexivity.
  - destruct (accepted (path req)) eqn:Ha.
    + destruct (declared_length rt req) as [n|msg] eqn:Hn.
      * destruct (read_failure rt n) as [rmsg|] eqn:Hr;
          [apply (nothing _ (run_read_error h rt w req n rmsg Hc Ha Hn Hr)); reflexivity|].
        assert (Hre : (length (read_events req n) <= 1)%nat
                      /\ forallb is_rfile_read (read_events req n) = true).
        { unfold read_events. destruct (n >? 0); simpl; split; auto. }
        destruct Hre as [Hr1 Hr2]. destruct h.
        -- exists (read_events req n), [RequestsPost (simple_call req n)]. eexists.
           split; [apply (run_simple_accepted rt w req n Hc Ha Hn Hr)|].
           repeat split; auto.
           destruct (requests_post w (simple_call req n)) as [r|e]; [|reflexivity].
           destruct (sse_enabled (headers req)); [|reflexivity].
           apply (no_forwarding_chunks (fst (iter_content r 1024))).
        -- exists (read_events req n), [Urlopen (urllib_call req n)]. eexists.
           split; [apply (run_cors_accepted rt w req n Hc Ha Hn Hr)|].
           repeat split; auto.
           destruct (urlopen w (urllib_call req n)) as [u|e];
             [|apply no_forwarding_cors_except].
           destruct (read u) as [b|e]; [reflexivity|].
           apply (no_forwarding_cors_except rt e).
      * apply (nothing _ (run_int_error h rt w req msg Hc Ha Hn)). reflexivity.
    + apply (nothing _ (run_rejected h rt w req Hc Ha)). reflexivity.
Qed.



Lemma header_step_keeps l r :
  full_url (fold_left CORSProxy.header_step l r) = full_url r
  /\ data (fold_left CORSProxy.header_step l r) = data r
  /\ method (fold_left CORSProxy.header_step l r) = method r.
Proof.
  revert r; induction l as [|[k v] l IH]; intros r; [now repeat split|].
  cbn [fold_left]. destruct (IH (CORSProxy.header_step r (k, v))) as (-> & -> & ->).
  unfold CORSProxy.header_step. now destruct (negb _).
Qed.

Lemma urllib_call_data req n : data (uo_req (urllib_call req n)) = post_data req n.
Proof.
  unfold urllib_call. cbn [uo_req].
  match goal with |- context [fold_left _ _ ?r0] =>
    destruct (header_step_keeps (headers req) r0) as (_ & -> & _) end.
  reflexivity.
Qed.



(** Without a Content-Length field, or with one that declares zero or a
    negative number, the handler does not read the request body at all and
    still calls upstream once, with an empty body. *)
Theorem no_length_no_read h rt w req :
  command req = POST -> accepted (path req) = true ->
  (headers_get (headers req) "Content-Length" = None
   \/ exists v n, headers_get (headers req) "Content-Length" = Some v
                  /\ py_int rt v = inl n /\ n <= 0) ->
  List.filter is_rfile_read (run h rt w req) = []
  /\ rfile (final h rt w req) = body_stream req
  /\ map rq_data (requests_calls (run SimpleProxyHandler rt w req)) = [""]
  /\ map (fun c => data (uo_req c)) (urlopen_calls (run CORSProxyHandler rt w req)) = [""].
Proof.
  intros Hc Ha Hlen.
  assert (Hn : exists n, declared_length rt req = inl n /\ (n >? 0) = false).
  { unfold declared_length. destruct Hlen as [->|(v & n & -> & -> & Hle)].
    - now exists 0.
    - exists n. split; [reflexivity|]. rewrite Z.gtb_ltb. apply Z.ltb_ge. lia. }
  destruct Hn as (n & Hn & En).
  assert (Hr : read_failure rt n = None) by (unfold read_failure; now rewrite En).
  assert (Hd : post_data req n = "") by (unfold post_data; now rewrite En).
  split; [|split; [|split]].
  - assert (Hrest : forall tr, no_forwarding tr = true -> List.filter is_rfile_read tr = []).
    { induction tr as [|e tr IH]; [reflexivity|].
      unfold no_forwarding. cbn [forallb List.filter]. intros H.
      apply andb_true_iff in H. destruct H as [H1 H2].
      apply negb_true_iff, orb_false_iff in H1. destruct H1 as [_ ->]. now apply IH. }
    destruct h.
    + rewrite (run_simple_accepted rt w req n Hc Ha Hn Hr).
      unfold read_events. rewrite En. cbn [app List.filter is_rfile_read].
      apply Hrest.
      destruct (requests_post w (simple_call req n)) as [r|e]; [|reflexivity].
      destruct (sse_enabled (headers req)); [|reflexivity].
      apply (no_forwarding_chunks (fst (iter_content r 1024))).
    + rewrite (run_cors_accepted rt w req n Hc Ha Hn Hr).
      unfold read_events. rewrite En. cbn [app List.filter is_rfile_read].
      apply Hrest.
      destruct (urlopen w (urllib_call req n)) as [u|e];
        [|apply no_forwarding_cors_except].
      destruct (read u) as [b|e]; [reflexivity|].
      apply (no_forwarding_cors_except rt e).
  - destruct (final_accepted h rt w req n Hc Ha Hn Hr) as (_ & _ & ->).
    unfold remaining. now rewrite En.
  - rewrite (one_requests_call rt w req n Hc Ha Hn Hr). cbn [map]. now rewrite <- Hd.
  - rewrite (one_urlopen_call rt w req n Hc Ha Hn Hr). cbn [map].
    now rewrite urllib_call_data, Hd.
Qed.

(** The theorem at a request without a Content-Length field. *)
Lemma no_length_no_read_witness :
  command no_length_request = POST
  /\ accepted (path no_length_request) = true
  /\ headers_get (headers no_length_request) "Content-Length" = None
  /\ rfile (final CORSProxyHandler sample_runtime
              (answering sample_response sample_url_response) no_length_request)
     = body_stream no_length_request.
Proof.
  split; [reflexivity|]. split; [reflexivity|]. split; [reflexivity|].
  apply (no_length_no_read CORSProxyHandler sample_runtime
           (answering sample_response sample_url_response) no_length_request);
    [reflexivity|reflexivity|left; reflexivity].
Defined.

(** A Content-Length that [int] refuses is answered 500 with the
    [Proxy error] body carrying the text of the [ValueError]; the request
    body is not read and the client is not called. *)
Theorem bad_length_answered_500 h rt w req v msg :
  command req = POST -> accepted (path req) = true ->
  headers_get (headers req) "Content-Length" = Some v ->
  py_int rt v = inr msg ->
  run h rt w req = [WfileHead (error_head rt h); WfileWrite (error_json "Proxy error" msg)]
  /\ map status_codes (heads (run h rt w req)) = [[500]]
  /\ no_forwarding (run h rt w req) = true
  /\ rfile (final h rt w req) = body_stream req.
Proof.
  intros Hc Ha Hv Hi.
  assert (Hn : declared_length rt req = inr msg).
  { unfold declared_length. now rewrite Hv. }
  rewrite (run_int_error h rt w req msg Hc Ha Hn).
  split; [reflexivity|]. split; [now destruct h|]. split; [reflexivity|].
  apply (final_int_error h rt w req msg Hc Ha Hn).
Qed.

(** The theorem at [Content-Length: abc]. *)
Lemma bad_length_answered_500_witness :
  command bad_length_request = POST
  /\ accepted (path bad_length_request) = true
  /\ headers_get (headers bad_length_request) "Content-Length" = Some "abc"
  /\ py_int sample_runtime "abc" = inr "invalid literal for int() with base 10: 'abc'"
  /\ no_forwarding
       (run SimpleProxyHandler sample_runtime
          (answering sample_response sample_url_response) bad_length_request) = true.
Proof.
  split; [reflexivity|]. split; [reflexivity|]. split; [reflexivity|]. split; [reflexivity|].
  apply (bad_length_answered_500 SimpleProxyHandler sample_runtime
           (answering sample_response sample_url_response) bad_length_request
           "abc" "invalid literal for int() with base 10: 'abc'"); reflexivity.
Defined.

(** A positive Content-Length that the reader of the connection refuses
    ([rfile.read] raises, as it does with [OverflowError] for a size beyond
    what the index type holds) is answered 500 with the [Proxy error] body
    carrying the text of the exception; nothing is read and the client is
    not called. *)
Theorem unreadable_length_answered_500 h rt w req v n msg :
  command req = POST -> accepted (path req) = true ->
  headers_get (headers req) "Content-Length" = Some v ->
  py_int rt v = inl n -> 0 < n ->
  rfile_read_error rt n = Some msg ->
  run h rt w req = [WfileHead (error_head rt h); WfileWrite (error_json "Proxy error" msg)]
  /\ map status_codes (heads (run h rt w req)) = [[500]]
  /\ no_forwarding (run h rt w req) = true
  /\ rfile (final h rt w req) = body_stream req.
Proof.
  intros Hc Ha Hv Hi Hpos He.
  assert (Hn : declared_length rt req = inl n).
  { unfold declared_length. now rewrite Hv. }
  assert (Hr : read_failure rt n = Some msg).
  { unfold read_failure. replace (n >? 0) with true; [exact He|].
    symmetry. apply Z.gtb_lt. lia. }
  rewrite (run_read_error h rt w req n msg Hc Ha Hn Hr).
  split; [reflexivity|]. split; [now destruct h|]. split; [reflexivity|].
  apply (final_read_error h rt w req n msg Hc Ha Hn Hr).
Qed.

(** The theorem at [Content-Length: 99999999999999999999]. *)
Lemma unreadable_length_answered_500_witness :
  command oversized_length_request = POST
  /\ accepted (path oversized_length_request) = true
  /\ headers_get (headers oversized_length_request) "Content-Length"
     = Some "99999999999999999999"
  /\ py_int sample_runtime "99999999999999999999" = inl 99999999999999999999
  /\ 0 < 99999999999999999999
  /\ rfile_read_error sample_runtime 99999999999999999999
     = Some "cannot fit 'int' into an index-sized integer"
  /\ run SimpleProxyHandler sample_runtime
       (answering sample_response sample_url_response) oversized_length_request
     = [ WfileHead (error_head sample_runtime SimpleProxyHandler);
         WfileWrite (error_json "Proxy error"
                       "cannot fit 'int' into an index-sized integer") ].
Proof.
  split; [reflexivity|]. split; [reflexivity|]. split; [reflexivity|].
  split; [reflexivity|]. split; [reflexivity|]. split; [reflexivity|].
  apply (unreadable_length_answered_500 SimpleProxyHandler sample_runtime
           (answering sample_response sample_url_response) oversized_length_request
           "99999999999999999999" 99999999999999999999
           "cannot fit 'int' into an index-sized integer"); reflexivity.
Defined.

(** ** What is relayed when the upstream answers or fails *)

Lemma status_codes_relay_head rt h code kept :
  status_codes (relay_head rt h code kept) = [code].
Proof.
  rewrite relay_head_shape. cbn [status_codes]. f_equal.
  generalize (("Server", version_string rt) :: ("Date", date_time_string rt)
              :: cors_headers h ++ kept) as l.
  induction l as [|kv l IH]; [reflexivity|exact IH].
Qed.

(** Once the body is read, SimpleProxyHandler relays the status code of
    whatever response [requests.post] returns, error statuses included, in one header block
    whose reason phrase is the one of the local table for that code. *)
Theorem simple_relays_any_status rt w req n r :
  command req = POST -> accepted (path req) = true ->
  declared_length rt req = inl n -> read_failure rt n = None ->
  requests_post w (simple_call req n) = inl r ->
  exists fields,
    heads (run SimpleProxyHandler rt w req) =
      [ StatusLine protocol_version (status_code r) (reason_phrase rt (status_code r))
        :: as_lines fields ]
    /\ map status_codes (heads (run SimpleProxyHandler rt w req)) = [[status_code r]].
Proof.
  intros Hc Ha Hn Hr Hw.
  assert (Hh : heads (run SimpleProxyHandler rt w req) =
               [relay_head rt SimpleProxyHandler (status_code r)
                  (relayed SimpleProxyHandler (resp_headers r))]).
  { rewrite (run_simple_accepted rt w req n Hc Ha Hn Hr), Hw.
    rewrite heads_app, heads_read_events. cbn [heads app]. f_equal.
    destruct (sse_enabled (headers req)); [apply heads_chunks|reflexivity]. }
  rewrite Hh. eexists. split.
  - now rewrite relay_head_shape.
  - cbn [map]. now rewrite status_codes_relay_head.
Qed.

(** The theorem at an upstream that answers 401. *)
Lemma simple_relays_any_status_witness :
  command buffered_request = POST
  /\ accepted (path buffered_request) = true
  /\ declared_length sample_runtime buffered_request = inl 2
  /\ read_failure sample_runtime 2 = None
  /\ exists fields,
       heads (run SimpleProxyHandler sample_runtime
                (answering unauthorized_response sample_url_response) buffered_request) =
         [ StatusLine protocol_version 401 "Unauthorized" :: as_lines fields ]
       /\ map status_codes
            (heads (run SimpleProxyHandler sample_runtime
                      (answering unauthorized_response sample_url_response)
                      buffered_request)) = [[401]].
Proof.
  split; [reflexivity|].
  split; [reflexivity|]. split; [reflexivity|]. split; [reflexivity|].
  apply (simple_relays_any_status sample_runtime
           (answering unauthorized_response sample_url_response) buffered_request 2
           unauthorized_response); reflexivity.
Defined.

(** When the body is read and [urlopen] raises an [HTTPError],
    CORSProxyHandler answers with the
    status code of the error and its CORS fields only, and the body is what
    [e.read()] returns; when that read fails, the body is a JSON text made
    of the code and the reason. *)
Theorem cors_relays_http_error rt w req n code reason body :
  command req = POST -> accepted (path req) = true ->
  declared_length rt req = inl n -> read_failure rt n = None ->
  urlopen w (urllib_call req n) = inr (HTTPError code reason body) ->
  let sent := match body with
              | Some error_body => error_body
              | None => http_error_json code reason
              end in
  run CORSProxyHandler rt w req =
    read_events req n ++
    [ Urlopen (urllib_call req n);
      WfileHead (relay_head rt CORSProxyHandler code []);
      WfileWrite sent ]
  /\ map status_codes (heads (run CORSProxyHandler rt w req)) = [[code]]
  /\ response_body (run CORSProxyHandler rt w req) = sent.
Proof.
  intros Hc Ha Hn Hr Hw sent.
  rewrite (run_cors_accepted rt w req n Hc Ha Hn Hr), Hw.
  split; [reflexivity|]. split.
  - rewrite heads_app, heads_read_events. cbn [heads app cors_except map].
    now rewrite status_codes_relay_head.
  - unfold response_body. rewrite body_writes_app, body_writes_read_events.
    cbn [body_writes app cors_except Str.join fold_right].
    apply append_empty_r.
Qed.

(** The theorem at an upstream 401 whose body cannot be read. *)
Lemma cors_relays_http_error_witness :
  command buffered_request = POST
  /\ accepted (path buffered_request) = true
  /\ declared_length sample_runtime buffered_request = inl 2
  /\ read_failure sample_runtime 2 = None
  /\ response_body
       (run CORSProxyHandler sample_runtime
          (unreachable (HTTPError 401 "Unauthorized" None)) buffered_request)
     = http_error_json 401 "Unauthorized".
Proof.
  split; [reflexivity|].
  split; [reflexivity|]. split; [reflexivity|]. split; [reflexivity|].
  apply (cors_relays_http_error sample_runtime
           (unreachable (HTTPError 401 "Unauthorized" None)) buffered_request 2
           401 "Unauthorized" None); reflexivity.
Defined.

(** Once the body is read and the client has returned a response, a failure
    of the upstream iterator in the middle of a streamed body is swallowed: [do_POST] returns, the chunks received before the failure
    have been written, and the caller gets no second header block and no
    error body. *)
Theorem stream_failure_is_swallowed rt w req n r chunks e :
  command req = POST -> accepted (path req) = true ->
  declared_length rt req = inl n -> read_failure rt n = None ->
  requests_post w (simple_call req n) = inl r ->
  sse_enabled (headers req) = true ->
  iter_content r 1024 = (chunks, Some e) ->
  outcome SimpleProxyHandler rt w req = inl tt
  /\ map status_codes (heads (run SimpleProxyHandler rt w req)) = [[status_code r]]
  /\ body_writes (run SimpleProxyHandler rt w req)
     = List.filter (fun c => negb (String.eqb c "")) chunks
  /\ response_body (run SimpleProxyHandler rt w req) = Str.join chunks.
Proof.
  intros Hc Ha Hn Hr Hw Hs Hi.
  split; [apply (final_simple_accepted rt w req n Hc Ha Hn Hr)|].
  assert (Hb : body_writes (run SimpleProxyHandler rt w req)
               = List.filter (fun c => negb (String.eqb c "")) chunks).
  { rewrite (run_simple_accepted rt w req n Hc Ha Hn Hr), Hw, Hs, Hi.
    rewrite body_writes_app, body_writes_read_events.
    cbn [body_writes app fst]. apply body_writes_chunks. }
  split; [|split; [exact Hb|]].
  - rewrite (run_simple_accepted rt w req n Hc Ha Hn Hr), Hw, Hs.
    rewrite heads_app, heads_read_events. cbn [heads app].
    rewrite heads_chunks. cbn [map]. now rewrite status_codes_relay_head.
  - unfold response_body. rewrite Hb. apply join_nonempty.
Qed.

(** The theorem at a stream that breaks after one chunk. *)
Lemma stream_failure_is_swallowed_witness :
  command streaming_request = POST
  /\ accepted (path streaming_request) = true
  /\ declared_length sample_runtime streaming_request = inl 2
  /\ read_failure sample_runtime 2 = None
  /\ sse_enabled (headers streaming_request) = true
  /\ iter_content failing_stream_response 1024
     = (["data: "], Some (Exception "Connection broken"))
  /\ outcome SimpleProxyHandler sample_runtime
       (answering failing_stream_response sample_url_response) streaming_request = inl tt.
Proof.
  split; [reflexivity|].
  split; [reflexivity|]. split; [reflexivity|]. split; [reflexivity|].
  split; [reflexivity|]. split; [reflexivity|].
  apply (stream_failure_is_swallowed sample_runtime
           (answering failing_stream_response sample_url_response) streaming_request 2
           failing_stream_response ["data: "] (Exception "Connection broken"));
    reflexivity.
Defined.

(** When the body of the request is read, [urlopen] returns, and
    [response.read()] raises after CORSProxyHandler has sent the header
    block of the upstream response, the handler sends a second header block,
    with status 500, and the [Proxy error] body after the first one. *)
Theorem cors_read_failure_second_head rt w req n u msg :
  command req = POST -> accepted (path req) = true ->
  declared_length rt req = inl n -> read_failure rt n = None ->
  urlopen w (urllib_call req n) = inl u ->
  read u = inr (Exception msg) ->
  run CORSProxyHandler rt w req =
    read_events req n ++
    [ Urlopen (urllib_call req n);
      WfileHead (relay_head rt CORSProxyHandler (getcode u)
                   (relayed CORSProxyHandler (url_headers u)));
      WfileHead (error_head rt CORSProxyHandler);
      WfileWrite (error_json "Proxy error" msg) ]
  /\ map status_codes (heads (run CORSProxyHandler rt w req)) = [[getcode u]; [500]].
Proof.
  intros Hc Ha Hn Hr Hw Hu.
  rewrite (run_cors_accepted rt w req n Hc Ha Hn Hr), Hw, Hu.
  split; [reflexivity|].
  rewrite heads_app, heads_read_events. cbn [heads app cors_except map].
  unfold error_head. now rewrite !status_codes_relay_head.
Qed.

(** The theorem at an upstream whose body cannot be read to the end. *)
Lemma cors_read_failure_second_head_witness :
  command buffered_request = POST
  /\ accepted (path buffered_request) = true
  /\ declared_length sample_runtime buffered_request = inl 2
  /\ read_failure sample_runtime 2 = None
  /\ read unreadable_url_response = inr (Exception "IncompleteRead(0 bytes read)")
  /\ map status_codes
       (heads (run CORSProxyHandler sample_runtime
                 (answering sample_response unreadable_url_response) buffered_request))
     = [[200]; [500]].
Proof.
  split; [reflexivity|].
  split; [reflexivity|]. split; [reflexivity|]. split; [reflexivity|]. split; [reflexivity|].
  apply (cors_read_failure_second_head sample_runtime
           (answering sample_response unreadable_url_response) buffered_request 2
           unreadable_url_response "IncompleteRead(0 bytes read)"); reflexivity.
Defined.

(** Once the body is read, an exception of [requests.post] that is not a
    [RequestException] is answered by SimpleProxyHandler with status 500 and the [Proxy error]
    body, not the [Request failed] one. *)
Theorem simple_other_exception_proxy_error rt w req n msg :
  command req = POST -> accepted (path req) = true ->
  declared_length rt req = inl n -> read_failure rt n = None ->
  requests_post w (simple_call req n) = inr (Exception msg) ->
  run SimpleProxyHandler rt w req =
    read_events req n ++
    [ RequestsPost (simple_call req n);
      WfileHead (error_head rt SimpleProxyHandler);
      WfileWrite (error_json "Proxy error" msg) ]
  /\ map status_codes (heads (run SimpleProxyHandler rt w req)) = [[500]]
  /\ Str.startswith (response_body (run SimpleProxyHandler rt w req))
       request_failed_opening = false.
Proof.
  intros Hc Ha Hn Hr Hw.
  rewrite (run_simple_accepted rt w req n Hc Ha Hn Hr), Hw.
  split; [reflexivity|]. split.
  - now rewrite heads_app, heads_read_events.
  - unfold response_body. rewrite body_writes_app, body_writes_read_events.
    cbn [body_writes app simple_except Str.join fold_right str_e].
    rewrite append_empty_r. reflexivity.
Qed.

(** The theorem at a client call that raises a plain exception. *)
Lemma simple_other_exception_proxy_error_witness :
  command buffered_request = POST
  /\ accepted (path buffered_request) = true
  /\ declared_length sample_runtime buffered_request = inl 2
  /\ read_failure sample_runtime 2 = None
  /\ map status_codes
       (heads (run SimpleProxyHandler sample_runtime
                 (unreachable (Exception "boom")) buffered_request)) = [[500]].
Proof.
  split; [reflexivity|].
  split; [reflexivity|]. split; [reflexivity|]. split; [reflexivity|].
  apply (simple_other_exception_proxy_error sample_runtime
           (unreachable (Exception "boom")) buffered_request 2 "boom"); reflexivity.
Defined.

Lemma no_streaming_app a b : no_streaming (a ++ b) = no_streaming a && no_streaming b.
Proof. unfold no_streaming. apply forallb_app. Qed.

Lemma no_streaming_read_events req n : no_streaming (read_events req n) = true.
Proof. unfold read_events. destruct (n >? 0); reflexivity. Qed.

Lemma body_writes_cors_except rt e : (length (body_writes (cors_except rt e)) <= 1)%nat.
Proof. destruct e; simpl; lia. Qed.

Lemma no_streaming_cors_except rt e : no_streaming (cors_except rt e) = true.
Proof. destruct e; reflexivity. Qed.

(** Outside the streaming mode nothing is taken from an upstream iterator
    and nothing is flushed, and the body is at most one write: this holds
    for every run of CORSProxyHandler, which has no streaming mode, and for
    every run of SimpleProxyHandler on a request without
    [X-DashScope-SSE: enable]. *)
Theorem buffered_runs_never_flush h rt w req :
  h = CORSProxyHandler \/ sse_enabled (headers req) = false ->
  no_streaming (run h rt w req) = true
  /\ (length (body_writes (run h rt w req)) <= 1)%nat.
Proof.
  intros Hmode.
  destruct (command req) eqn:Hc.
  - rewrite (run_options h rt w req Hc). split; [reflexivity|simpl; lia].
  - destruct (accepted (path req)) eqn:Ha.
    + destruct (declared_length rt req) as [n|msg] eqn:Hn.
      * destruct (read_failure rt n) as [rmsg|] eqn:Hr;
          [rewrite (run_read_error h rt w req n rmsg Hc Ha Hn Hr);
           split; [reflexivity|simpl; lia]|].
        destruct h.
        -- destruct Hmode as [Hh|Hs]; [discriminate|].
           rewrite (run_simple_accepted rt w req n Hc Ha Hn Hr), Hs.
           rewrite no_streaming_app, no_streaming_read_events.
           rewrite body_writes_app, body_writes_read_events.
           destruct (requests_post w (simple_call req n)) as [r|e];
             (split; [reflexivity|simpl; lia]).
        -- rewrite (run_cors_accepted rt w req n Hc Ha Hn Hr).
           rewrite no_streaming_app, no_streaming_read_events.
           rewrite body_writes_app, body_writes_read_events.
           destruct (urlopen w (urllib_call req n)) as [u|e].
           ++ destruct (read u) as [b|e]; [split; [reflexivity|simpl; lia]|].
              split; [apply (no_streaming_cors_except rt e)|].
              apply (body_writes_cors_except rt e).
           ++ split; [apply (no_streaming_cors_except rt e)|].
              apply (body_writes_cors_except rt e).
      * rewrite (run_int_error h rt w req msg Hc Ha Hn). split; [reflexivity|simpl; lia].
    + rewrite (run_rejected h rt w req Hc Ha). split; [reflexivity|simpl; lia].
Qed.

(** The theorem at CORSProxyHandler and a request that asks for streaming. *)
Lemma buffered_runs_never_flush_witness :
  (CORSProxyHandler = CORSProxyHandler \/ sse_enabled (headers streaming_request) = false)
  /\ no_streaming
       (run CORSProxyHandler sample_runtime
          (answering sample_response sample_url_response) streaming_request) = true.
Proof.
  split; [left; reflexivity|].
  apply (buffered_runs_never_flush CORSProxyHandler sample_runtime
           (answering sample_response sample_url_response) streaming_request).
  left; reflexivity.
Defined.

(** ** The streaming header and the target URL *)




(** For a path that starts with the prefix and in which the prefix does not
    occur again, both handlers call upstream at the origin followed by the
    rest of the path, query string included, character for character. *)
Theorem target_url_keeps_remainder rest :
  occurs "/api/dashscope" rest = false ->
  SimpleProxy.target_url ("/api/dashscope" +:+ rest)
    = "https://dashscope.aliyuncs.com" +:+ rest
  /\ CORSProxy.target_url ("/api/dashscope" +:+ rest)
     = "https://dashscope.aliyuncs.com" +:+ rest.
Proof.
  intros H. split; exact (target_url_single_prefix rest H).
Qed.

(** The theorem at the path of the example of the specification. *)
Lemma target_url_keeps_remainder_witness :
  occurs "/api/dashscope" "/v1/foo?x=1" = false
  /\ SimpleProxy.target_url ("/api/dashscope" +:+ "/v1/foo?x=1")
     = "https://dashscope.aliyuncs.com" +:+ "/v1/foo?x=1".
Proof.
  split; [reflexivity|].
  apply (target_url_keeps_remainder "/v1/foo?x=1"). reflexivity.
Defined.

(** A path made of the prefix, a slash, the prefix without its first slash
    and any text [s] passes the prefix test, and the target URL is the
    origin followed by [s] at once: the code does not keep a slash between
    the upstream host and what follows it. *)
Theorem target_url_host_suffix s :
  occurs "/api/dashscope" s = false ->
  accepted ("/api/dashscope/api/dashscope" +:+ s) = true
  /\ SimpleProxy.target_url ("/api/dashscope/api/dashscope" +:+ s)
     = "https://dashscope.aliyuncs.com" +:+ s
  /\ CORSProxy.target_url ("/api/dashscope/api/dashscope" +:+ s)
     = "https://dashscope.aliyuncs.com" +:+ s.
Proof.
  intros H. split; [reflexivity|].
  assert (E : SimpleProxy.target_url ("/api/dashscope/api/dashscope" +:+ s)
              = "https://dashscope.aliyuncs.com" +:+ s).
  { unfold SimpleProxy.target_url, Str.replace. f_equal.
    transitivity (Str.replace_scan "/api/dashscope" "" 0 s);
      [destruct s; reflexivity|].
    now apply replace_scan_absent. }
  split; exact E.
Qed.

(** The theorem at the suffix [.example.org/x]. *)
Lemma target_url_host_suffix_witness :
  occurs "/api/dashscope" ".example.org/x" = false
  /\ SimpleProxy.target_url ("/api/dashscope/api/dashscope" +:+ ".example.org/x")
     = "https://dashscope.aliyuncs.com" +:+ ".example.org/x".
Proof.
  split; [reflexivity|].
  apply (target_url_host_suffix ".example.org/x"). reflexivity.
Defined.
